(** * Document-status aggregation and delivery notification

    A shallow embedding of the order / project-document logic of the admin
    dashboard:

    - [src/context/ProjectContext.tsx]: the provider that holds the [orders]
      and [projectDocuments] state and the operations [addOrder],
      [updateOrderStatus], [getProjectDocuments],
      [sendProjectDocumentsForOrder] and [sendProjectDocuments];
    - [src/pages/admin/AdminDocumentStatusPage copy.tsx]: the
      [documentStatuses] derivation shown on the admin page.

    JavaScript strings are [string], [===] on strings is [String.eqb],
    array [filter]/[map]/[find]/[length] are the list functions of the same
    name, and [async] functions that [throw] or are wrapped in [try]/[catch]
    run in a small state-and-exception monad over the provider state. *)

From Stdlib Require Import String List Bool Arith ZArith Lia.
Import ListNotations.
Open Scope string_scope.

(** ** Data model *)

(** A row of the [orders] table as the database returns it. *)
Module OrderRow.
Record t := mk {
  id : string;
  customer_name : string;
  customer_email : string;
  project_id : string;
  project_title : string;
  price : Z;
  status : string;
  created_at : string;
  updated_at : string
}.
End OrderRow.

(** The argument of [addOrder]:
    [Omit<Order, 'id' | 'created_at' | 'updated_at'>]. *)
Module NewOrder.
Record t := mk {
  customerName : string;
  customerEmail : string;
  projectId : string;
  projectTitle : string;
  price : Z;
  status : string
}.
End NewOrder.

(** What [addOrder] sends to the [orders] table ([snakeCaseData]). *)
Module OrderInsert.
Record t := mk {
  customer_name : string;
  customer_email : string;
  project_id : string;
  project_title : string;
  price : Z;
  status : string
}.
End OrderInsert.

(** An order held in the [orders] state: the database row spread into the
    object ([...data]) together with the camelCase copies the provider adds.
    A string field that is absent or empty is the empty string, which is the
    only thing the page tests it for (with [||]). *)
Module Order.
Record t := mk {
  id : string;
  customer_name : string;
  customer_email : string;
  project_id : string;
  project_title : string;
  price : Z;
  status : string;
  created_at : string;
  updated_at : string;
  projectId : string;
  customerName : string;
  customerEmail : string;
  projectTitle : string;
  createdAt : string;
  updatedAt : string
}.

(** [{ ...order, status }] *)
Definition with_status (order : t) (new_status : string) : t :=
  {| id := id order;
     customer_name := customer_name order;
     customer_email := customer_email order;
     project_id := project_id order;
     project_title := project_title order;
     price := price order;
     status := new_status;
     created_at := created_at order;
     updated_at := updated_at order;
     projectId := projectId order;
     customerName := customerName order;
     customerEmail := customerEmail order;
     projectTitle := projectTitle order;
     createdAt := createdAt order;
     updatedAt := updatedAt order |}.

(** The conversion applied to a database row, in [fetchOrders] and in
    [addOrder] ([convertedOrder]). *)
Definition of_row (data : OrderRow.t) : t :=
  {| id := OrderRow.id data;
     customer_name := OrderRow.customer_name data;
     customer_email := OrderRow.customer_email data;
     project_id := OrderRow.project_id data;
     project_title := OrderRow.project_title data;
     price := OrderRow.price data;
     status := OrderRow.status data;
     created_at := OrderRow.created_at data;
     updated_at := OrderRow.updated_at data;
     projectId := OrderRow.project_id data;
     customerName := OrderRow.customer_name data;
     customerEmail := OrderRow.customer_email data;
     projectTitle := OrderRow.project_title data;
     createdAt := OrderRow.created_at data;
     updatedAt := OrderRow.updated_at data |}.
End Order.

(** A row of the [project_documents] table (columns of the migration that
    creates it). [is_active] is the truth value the filters test. *)
Module ProjectDocument.
Record t := mk {
  id : string;
  project_id : string;
  name : string;
  url : string;
  type : string;
  size : Z;
  review_stage : string;
  document_category : string;
  description : option string;
  is_active : bool;
  created_at : string;
  updated_at : string
}.
End ProjectDocument.

(** One entry of the manifest sent to the customer ([formattedDocuments]). *)
Module FormattedDocument.
Record t := mk {
  name : string;
  url : string;
  category : string;
  review_stage : string;
  size : Z
}.
End FormattedDocument.

(** The argument of the external [sendDocumentDelivery]. *)
Module DocumentDeliveryData.
Record t := mk {
  project_title : string;
  customer_name : string;
  customer_email : string;
  order_id : string;
  documents : list FormattedDocument.t;
  access_expires : string
}.
End DocumentDeliveryData.

(** [DocumentStatus['status']] of the admin page. *)
Inductive DocumentStatusKind :=
| delivered
| pending
| no_documents
| partial.

Module ReviewStages.
Record t := mk {
  review_1 : nat;
  review_2 : nat;
  review_3 : nat
}.
End ReviewStages.

(** [interface DocumentStatus] of the admin page. In [lastDeliveryDate],
    [None] is the [undefined] of the other branch of the conditional and
    [Some date] carries the value of [order.updated_at || order.updatedAt],
    in which, as in the fields of an order, the empty string stands for a
    date that is absent or empty. *)
Module DocumentStatus.
Record t := mk {
  orderId : string;
  customerName : string;
  customerEmail : string;
  projectTitle : string;
  orderDate : string;
  status : DocumentStatusKind;
  documentsCount : nat;
  reviewStages : ReviewStages.t;
  lastDeliveryDate : option string
}.
End DocumentStatus.

(** ** The provider state *)

(** The two [useState] cells the claims are about, and the calls made so far
    to the external [sendDocumentDelivery], oldest first. *)
Record ProviderState := mkState {
  orders : list Order.t;
  projectDocuments : list ProjectDocument.t;
  deliveryCalls : list DocumentDeliveryData.t
}.

(** The state after [setOrders], after [setProjectDocuments], and after one
    more call to [sendDocumentDelivery]. *)
Definition with_orders (st : ProviderState) (new_orders : list Order.t)
  : ProviderState :=
  {| orders := new_orders;
     projectDocuments := projectDocuments st;
     deliveryCalls := deliveryCalls st |}.

Definition with_projectDocuments (st : ProviderState)
    (new_documents : list ProjectDocument.t) : ProviderState :=
  {| orders := orders st;
     projectDocuments := new_documents;
     deliveryCalls := deliveryCalls st |}.

Definition record_delivery_call (st : ProviderState)
    (data : DocumentDeliveryData.t) : ProviderState :=
  {| orders := orders st;
     projectDocuments := projectDocuments st;
     deliveryCalls := deliveryCalls st ++ [data] |}.

(** [a || b] on strings: the empty string is the falsy one. *)
Definition js_or (a b : string) : string :=
  if a =? "" then b else a.

(** ** Pure derivations *)

(** [getProjectDocuments]:
    [projectDocuments.filter(doc => doc.project_id === projectId && doc.is_active)] *)
Definition getProjectDocuments (st : ProviderState) (projectId : string)
  : list ProjectDocument.t :=
  filter (fun doc => (ProjectDocument.project_id doc =? projectId)
                     && ProjectDocument.is_active doc)
         (projectDocuments st).

(** [getDocumentsByReviewStage] *)
Definition getDocumentsByReviewStage (st : ProviderState)
    (projectId reviewStage : string) : list ProjectDocument.t :=
  filter (fun doc => (ProjectDocument.project_id doc =? projectId)
                     && (ProjectDocument.review_stage doc =? reviewStage)
                     && ProjectDocument.is_active doc)
         (projectDocuments st).

(** The body of the [orders.map] callback of [documentStatuses], with the
    conditions of the [if] chain as the page writes them. *)
Definition cond_no_documents (totalDocuments : nat) : bool :=
  (totalDocuments =? 0)%nat.

Definition cond_delivered (order_status : string) (totalDocuments : nat) : bool :=
  (order_status =? "completed")%string && (0 <? totalDocuments)%nat.

Definition cond_pending (order_status : string) (totalDocuments : nat) : bool :=
  (0 <? totalDocuments)%nat && (order_status =? "pending")%string.

Definition determine_status (order_status : string) (totalDocuments : nat)
  : DocumentStatusKind :=
  if cond_no_documents totalDocuments then no_documents
  else if cond_delivered order_status totalDocuments then delivered
  else if cond_pending order_status totalDocuments then pending
  else partial.

Definition documentStatus (st : ProviderState) (order : Order.t)
  : DocumentStatus.t :=
  let documents := getProjectDocuments st (Order.projectId order) in
  let totalDocuments := length documents in
  let reviewStages :=
    {| ReviewStages.review_1 :=
         length (filter (fun doc => ProjectDocument.review_stage doc =? "review_1") documents);
       ReviewStages.review_2 :=
         length (filter (fun doc => ProjectDocument.review_stage doc =? "review_2") documents);
       ReviewStages.review_3 :=
         length (filter (fun doc => ProjectDocument.review_stage doc =? "review_3") documents) |} in
  let status := determine_status (Order.status order) totalDocuments in
  {| DocumentStatus.orderId := Order.id order;
     DocumentStatus.customerName :=
       js_or (Order.customer_name order) (Order.customerName order);
     DocumentStatus.customerEmail :=
       js_or (Order.customer_email order) (Order.customerEmail order);
     DocumentStatus.projectTitle :=
       js_or (Order.project_title order) (Order.projectTitle order);
     DocumentStatus.orderDate :=
       js_or (js_or (Order.created_at order) (Order.createdAt order)) "";
     DocumentStatus.status := status;
     DocumentStatus.documentsCount := totalDocuments;
     DocumentStatus.reviewStages := reviewStages;
     DocumentStatus.lastDeliveryDate :=
       match status with
       | delivered => Some (js_or (Order.updated_at order) (Order.updatedAt order))
       | _ => None
       end |}.

Definition documentStatuses (st : ProviderState) : list DocumentStatus.t :=
  map (documentStatus st) (orders st).

(** [documents.map(doc => ({ name, url, category, review_stage, size }))] *)
Definition formatDocument (doc : ProjectDocument.t) : FormattedDocument.t :=
  {| FormattedDocument.name := ProjectDocument.name doc;
     FormattedDocument.url := ProjectDocument.url doc;
     FormattedDocument.category := ProjectDocument.document_category doc;
     FormattedDocument.review_stage := ProjectDocument.review_stage doc;
     FormattedDocument.size := ProjectDocument.size doc |}.

(** The object [sendProjectDocumentsForOrder] passes to
    [sendDocumentDelivery]. *)
Definition deliveryData (st : ProviderState) (order : Order.t)
    (customerEmail customerName : string) : DocumentDeliveryData.t :=
  let documents := getProjectDocuments st (Order.projectId order) in
  let formattedDocuments := map formatDocument documents in
  {| DocumentDeliveryData.project_title := Order.projectTitle order;
     DocumentDeliveryData.customer_name := customerName;
     DocumentDeliveryData.customer_email := customerEmail;
     DocumentDeliveryData.order_id := Order.id order;
     DocumentDeliveryData.documents := formattedDocuments;
     DocumentDeliveryData.access_expires := "Never (lifetime access)" |}.

(** ** Effects: provider state, exceptions, outside collaborators *)

(** What an [async] function of the provider can throw: the error object the
    database client returned, a JavaScript [new Error(message)] made by the
    provider itself, or the rejection of the e-mail transport. *)
Inductive exn (DbError DeliveryError : Type) :=
| SupabaseError (error : DbError)
| JsError (message : string)
| DeliveryRejected (error : DeliveryError).
Arguments SupabaseError {DbError DeliveryError} error.
Arguments JsError {DbError DeliveryError} message.
Arguments DeliveryRejected {DbError DeliveryError} error.

Inductive result (E A : Type) :=
| Ok (value : A)
| Throw (error : E).
Arguments Ok {E A} value.
Arguments Throw {E A} error.

(** The collaborators that are out of scope, as the answers they give. Each
    answer may depend on everything that happened before (the state carries
    the log of delivery calls), so nothing is assumed about them.

    - [insert_order]: [supabase.from('orders').insert([row]).select().single()],
      an [error] or the stored row [data];
    - [update_order_status]: [supabase.from('orders').update({status, updated_at}).eq('id', id)],
      an [error] or nothing;
    - [deactivate_document]: the soft delete
      [supabase.from('project_documents').update({is_active: false, ...}).eq('id', id)];
    - [delivery_outcome]: whether [sendDocumentDelivery(data)] resolves
      ([None]) or rejects. *)
Record Collaborators (DbError DeliveryError : Type) := mkCollaborators {
  insert_order : ProviderState -> OrderInsert.t -> DbError + OrderRow.t;
  update_order_status : ProviderState -> string -> string -> option DbError;
  deactivate_document : ProviderState -> string -> option DbError;
  delivery_outcome : ProviderState -> DocumentDeliveryData.t -> option DeliveryError
}.
Arguments insert_order {DbError DeliveryError} _ _ _.
Arguments update_order_status {DbError DeliveryError} _ _ _ _.
Arguments deactivate_document {DbError DeliveryError} _ _ _.
Arguments delivery_outcome {DbError DeliveryError} _ _ _.

Section Provider.
Context {DbError DeliveryError : Type}.
Variable env : Collaborators DbError DeliveryError.

(** A computation of the provider: it reads and writes the state and
    either returns or throws. An operation reads [orders] and
    [projectDocuments] as they are when it is called; realtime refreshes
    that could change them while it runs are not part of the model. *)
Definition M (A : Type) : Type :=
  ProviderState -> result (exn DbError DeliveryError) A * ProviderState.

Definition ret {A} (a : A) : M A := fun st => (Ok a, st).

Definition bind {A B} (m : M A) (k : A -> M B) : M B :=
  fun st =>
    match m st with
    | (Ok a, st') => k a st'
    | (Throw e, st') => (Throw e, st')
    end.

Definition throw {A} (e : exn DbError DeliveryError) : M A :=
  fun st => (Throw e, st).

(** [try { body } catch (error) { handler(error) }] *)
Definition try_catch {A} (body : M A)
    (handler : exn DbError DeliveryError -> M A) : M A :=
  fun st =>
    match body st with
    | (Ok a, st') => (Ok a, st')
    | (Throw e, st') => handler e st'
    end.

Definition gets {A} (f : ProviderState -> A) : M A := fun st => (Ok (f st), st).

Definition setOrders (f : list Order.t -> list Order.t) : M unit :=
  fun st => (Ok tt, with_orders st (f (orders st))).

Definition setProjectDocuments
    (f : list ProjectDocument.t -> list ProjectDocument.t) : M unit :=
  fun st => (Ok tt, with_projectDocuments st (f (projectDocuments st))).

Local Notation "x <- m ;; k" := (bind m (fun x => k))
  (at level 61, m at next level, right associativity).
Local Notation "m ;;; k" := (bind m (fun _ => k))
  (at level 61, right associativity).

(** [await sendDocumentDelivery(data)]: the call is made (and logged), then
    it resolves or rejects as the transport decides. *)
Definition sendDocumentDelivery (data : DocumentDeliveryData.t) : M unit :=
  fun st =>
    match delivery_outcome env st data with
    | None => (Ok tt, record_delivery_call st data)
    | Some e => (Throw (DeliveryRejected e), record_delivery_call st data)
    end.

(** [sendProjectDocumentsForOrder] *)
Definition sendProjectDocumentsForOrder (order : Order.t)
    (customerEmail customerName : string) : M unit :=
  try_catch
    (data <- gets (fun st => deliveryData st order customerEmail customerName) ;;
     sendDocumentDelivery data)
    (fun error => throw error).

(** [sendProjectDocuments] *)
Definition sendProjectDocuments (orderId customerEmail customerName : string)
  : M unit :=
  try_catch
    (found <- gets (fun st => find (fun o => Order.id o =? orderId) (orders st)) ;;
     match found with
     | None => throw (JsError "Order not found")
     | Some order => sendProjectDocumentsForOrder order customerEmail customerName
     end)
    (fun error => throw error).

Definition snakeCaseData (order : NewOrder.t) : OrderInsert.t :=
  {| OrderInsert.customer_name := NewOrder.customerName order;
     OrderInsert.customer_email := NewOrder.customerEmail order;
     OrderInsert.project_id := NewOrder.projectId order;
     OrderInsert.project_title := NewOrder.projectTitle order;
     OrderInsert.price := NewOrder.price order;
     OrderInsert.status := NewOrder.status order |}.

(** [addOrder] *)
Definition addOrder (order : NewOrder.t) : M Order.t :=
  answer <- gets (fun st => insert_order env st (snakeCaseData order)) ;;
  match answer with
  | inl error => throw (SupabaseError error)
  | inr data =>
      let convertedOrder := Order.of_row data in
      setOrders (fun prevOrders => (prevOrders ++ [convertedOrder])%list) ;;;
      try_catch
        (sendProjectDocumentsForOrder convertedOrder
           (NewOrder.customerEmail order) (NewOrder.customerName order))
        (fun emailError => ret tt) ;;;
      ret convertedOrder
  end.

(** [updateOrderStatus] *)
Definition updateOrderStatus (id status : string) : M unit :=
  answer <- gets (fun st => update_order_status env st id status) ;;
  match answer with
  | Some error => ret tt
  | None =>
      setOrders (fun prevOrders =>
        map (fun order =>
               if Order.id order =? id
               then Order.with_status order status
               else order)
            prevOrders)
  end.

(** [deleteProjectDocument]: a soft delete in the database, a removal from
    the local state. *)
Definition deleteProjectDocument (id : string) : M unit :=
  answer <- gets (fun st => deactivate_document env st id) ;;
  match answer with
  | Some error => ret tt
  | None =>
      setProjectDocuments (fun prevDocs =>
        filter (fun doc => negb (ProjectDocument.id doc =? id)) prevDocs)
  end.

End Provider.

(** ** The contracts as the specification words them *)

(** The classification function in the specification's words:
    [no-documents] if zero active documents exist; else [delivered] if the
    order status is "completed"; else [pending] if the order status is
    "pending"; else [partial]. *)
Definition classification_spec (order_status : string) (activeDocuments : nat)
  : DocumentStatusKind :=
  match activeDocuments with
  | O => no_documents
  | S _ =>
      if order_status =? "completed" then delivered
      else if order_status =? "pending" then pending
      else partial
  end.

(** The number of documents of a list whose review stage is [stage]. *)
Fixpoint count_review_stage (stage : string)
    (documents : list ProjectDocument.t) : nat :=
  match documents with
  | [] => 0
  | doc :: rest =>
      (if ProjectDocument.review_stage doc =? stage then 1 else 0)
      + count_review_stage stage rest
  end.

(** The else branch of the page's [if] chain: none of the three tests holds. *)
Definition cond_partial (order_status : string) (totalDocuments : nat) : bool :=
  negb (cond_no_documents totalDocuments)
  && negb (cond_delivered order_status totalDocuments)
  && negb (cond_pending order_status totalDocuments).

(** How many of a list of tests hold. *)
Definition holding (tests : list bool) : nat :=
  length (filter (fun b => b) tests).

(** The state with the inactive documents dropped from [projectDocuments]. *)
Definition without_inactive (st : ProviderState) : ProviderState :=
  with_projectDocuments st
    (filter ProjectDocument.is_active (projectDocuments st)).

(** The manifest in the specification's words: every active document of the
    project, reduced to its name, url, category, review stage and size. *)
Fixpoint manifest_spec (documents : list ProjectDocument.t)
    (projectId : string) : list FormattedDocument.t :=
  match documents with
  | [] => []
  | doc :: rest =>
      if ProjectDocument.is_active doc then
        if ProjectDocument.project_id doc =? projectId then
          {| FormattedDocument.name := ProjectDocument.name doc;
             FormattedDocument.url := ProjectDocument.url doc;
             FormattedDocument.category := ProjectDocument.document_category doc;
             FormattedDocument.review_stage := ProjectDocument.review_stage doc;
             FormattedDocument.size := ProjectDocument.size doc |}
          :: manifest_spec rest projectId
        else manifest_spec rest projectId
      else manifest_spec rest projectId
  end.

(** Two orders agree on everything but, possibly, [status]. *)
Definition same_except_status (o o' : Order.t) : Prop :=
  Order.id o' = Order.id o
  /\ Order.customer_name o' = Order.customer_name o
  /\ Order.customer_email o' = Order.customer_email o
  /\ Order.project_id o' = Order.project_id o
  /\ Order.project_title o' = Order.project_title o
  /\ Order.price o' = Order.price o
  /\ Order.created_at o' = Order.created_at o
  /\ Order.updated_at o' = Order.updated_at o
  /\ Order.projectId o' = Order.projectId o
  /\ Order.customerName o' = Order.customerName o
  /\ Order.customerEmail o' = Order.customerEmail o
  /\ Order.projectTitle o' = Order.projectTitle o
  /\ Order.createdAt o' = Order.createdAt o
  /\ Order.updatedAt o' = Order.updatedAt o.

(** ** Sample data *)

Module Samples.

Definition doc (id project_id name review_stage : string) (is_active : bool)
  : ProjectDocument.t :=
  {| ProjectDocument.id := id;
     ProjectDocument.project_id := project_id;
     ProjectDocument.name := name;
     ProjectDocument.url := "https://files.example/" ++ name;
     ProjectDocument.type := "application/pdf";
     ProjectDocument.size := 1024;
     ProjectDocument.review_stage := review_stage;
     ProjectDocument.document_category := "presentation";
     ProjectDocument.description := None;
     ProjectDocument.is_active := is_active;
     ProjectDocument.created_at := "2025-06-16T06:16:41Z";
     ProjectDocument.updated_at := "2025-06-16T06:16:41Z" |}.

Definition row (id customer project_id status : string) : OrderRow.t :=
  {| OrderRow.id := id;
     OrderRow.customer_name := customer;
     OrderRow.customer_email := customer ++ "@example.com";
     OrderRow.project_id := project_id;
     OrderRow.project_title := "Project " ++ project_id;
     OrderRow.price := 4999;
     OrderRow.status := status;
     OrderRow.created_at := "2025-06-17T13:59:31Z";
     OrderRow.updated_at := "2025-06-17T13:59:31Z" |}.

Definition order (id customer project_id status : string) : Order.t :=
  Order.of_row (row id customer project_id status).

Definition new_order (customer project_id status : string) : NewOrder.t :=
  {| NewOrder.customerName := customer;
     NewOrder.customerEmail := customer ++ "@example.com";
     NewOrder.projectId := project_id;
     NewOrder.projectTitle := "Project " ++ project_id;
     NewOrder.price := 4999;
     NewOrder.status := status |}.

(** Project p1 has three active documents and a soft-deleted one, p2 has
    one active document, p3 has none. *)
Definition docs : list ProjectDocument.t :=
  [ doc "d1" "p1" "slides.pdf" "review_1" true;
    doc "d2" "p1" "report.pdf" "review_2" true;
    doc "d3" "p1" "old.pdf" "review_2" false;
    doc "d4" "p2" "code.zip" "review_3" true;
    doc "d5" "p1" "final.pdf" "review_3" true ].

Definition o1 : Order.t := order "o1" "ann" "p1" "completed".
Definition o2 : Order.t := order "o2" "bob" "p1" "pending".
Definition o3 : Order.t := order "o3" "cyd" "p3" "completed".
Definition o4 : Order.t := order "o4" "dee" "p2" "processing".

Definition st : ProviderState :=
  {| orders := [o1; o2; o3; o4];
     projectDocuments := docs;
     deliveryCalls := [] |}.

(** A second state, with other documents but again three active ones for
    its project q1. *)
Definition st' : ProviderState :=
  {| orders := [];
     projectDocuments :=
       [ doc "e1" "q1" "a.pdf" "review_1" true;
         doc "e2" "q1" "b.pdf" "review_1" true;
         doc "e3" "q1" "c.pdf" "draft" true ];
     deliveryCalls := [] |}.

Definition o5 : Order.t := order "o5" "eve" "q1" "completed".

(** The database stores what it is given under the id "o9". *)
Definition stored (r : OrderInsert.t) : OrderRow.t :=
  {| OrderRow.id := "o9";
     OrderRow.customer_name := OrderInsert.customer_name r;
     OrderRow.customer_email := OrderInsert.customer_email r;
     OrderRow.project_id := OrderInsert.project_id r;
     OrderRow.project_title := OrderInsert.project_title r;
     OrderRow.price := OrderInsert.price r;
     OrderRow.status := OrderInsert.status r;
     OrderRow.created_at := "2025-06-18T09:00:00Z";
     OrderRow.updated_at := "2025-06-18T09:00:00Z" |}.

(** Collaborators that all succeed. *)
Definition env_ok : Collaborators unit unit :=
  {| insert_order := fun _ r => inr (stored r);
     update_order_status := fun _ _ _ => None;
     deactivate_document := fun _ _ => None;
     delivery_outcome := fun _ _ => None |}.

(** The database works, the e-mail transport rejects every call. *)
Definition env_mail_down : Collaborators unit unit :=
  {| insert_order := fun _ r => inr (stored r);
     update_order_status := fun _ _ _ => None;
     deactivate_document := fun _ _ => None;
     delivery_outcome := fun _ _ => Some tt |}.

(** The database refuses every write. *)
Definition env_db_down : Collaborators unit unit :=
  {| insert_order := fun _ _ => inl tt;
     update_order_status := fun _ _ _ => Some tt;
     deactivate_document := fun _ _ => Some tt;
     delivery_outcome := fun _ _ => None |}.

End Samples.

(** The number of active documents of a project, in the words of the
    classification contract: a document counts when it is active and its
    project is the given one. *)
Fixpoint active_document_count (documents : list ProjectDocument.t)
    (projectId : string) : nat :=
  match documents with
  | [] => 0
  | doc :: rest =>
      if ProjectDocument.is_active doc then
        if ProjectDocument.project_id doc =? projectId
        then S (active_document_count rest projectId)
        else active_document_count rest projectId
      else active_document_count rest projectId
  end.

(** ** The other operations of the provider on orders and documents *)

(** The argument of [addProjectDocument]:
    [Omit<ProjectDocument, 'id' | 'created_at' | 'updated_at'>]. *)
Module NewProjectDocument.
Record t := mk {
  project_id : string;
  name : string;
  url : string;
  type : string;
  size : Z;
  review_stage : string;
  document_category : string;
  description : option string;
  is_active : bool
}.
End NewProjectDocument.

(** The argument of [updateProjectDocument]: [Partial<ProjectDocument>], a
    field being [None] when the object does not have it. *)
Module DocumentPatch.
Record t := mk {
  id : option string;
  project_id : option string;
  name : option string;
  url : option string;
  type : option string;
  size : option Z;
  review_stage : option string;
  document_category : option string;
  description : option (option string);
  is_active : option bool;
  created_at : option string;
  updated_at : option string
}.

Definition empty : t :=
  {| id := None; project_id := None; name := None; url := None;
     type := None; size := None; review_stage := None;
     document_category := None; description := None; is_active := None;
     created_at := None; updated_at := None |}.

(** One field of [{ ...doc, ...document }]. *)
Definition pick {A} (new : option A) (old : A) : A :=
  match new with
  | Some v => v
  | None => old
  end.

(** [{ ...doc, ...document }] *)
Definition apply (doc : ProjectDocument.t) (document : t) : ProjectDocument.t :=
  {| ProjectDocument.id := pick (id document) (ProjectDocument.id doc);
     ProjectDocument.project_id :=
       pick (project_id document) (ProjectDocument.project_id doc);
     ProjectDocument.name := pick (name document) (ProjectDocument.name doc);
     ProjectDocument.url := pick (url document) (ProjectDocument.url doc);
     ProjectDocument.type := pick (type document) (ProjectDocument.type doc);
     ProjectDocument.size := pick (size document) (ProjectDocument.size doc);
     ProjectDocument.review_stage :=
       pick (review_stage document) (ProjectDocument.review_stage doc);
     ProjectDocument.document_category :=
       pick (document_category document) (ProjectDocument.document_category doc);
     ProjectDocument.description :=
       pick (description document) (ProjectDocument.description doc);
     ProjectDocument.is_active :=
       pick (is_active document) (ProjectDocument.is_active doc);
     ProjectDocument.created_at :=
       pick (created_at document) (ProjectDocument.created_at doc);
     ProjectDocument.updated_at :=
       pick (updated_at document) (ProjectDocument.updated_at doc) |}.
End DocumentPatch.

(** What a [select('*')] of the provider's loaders can end in: the client
    returns an [error], the call itself throws, or the client returns
    [data], which may be [null]. *)
Inductive select_answer (DbError Row : Type) :=
| SelectError (error : DbError)
| SelectThrown
| SelectData (data : option (list Row)).
Arguments SelectError {DbError Row} error.
Arguments SelectThrown {DbError Row}.
Arguments SelectData {DbError Row} data.

(** The answers of the database to the remaining operations:

    - [delete_order]: [supabase.from('orders').delete().eq('id', id)];
    - [insert_document]:
      [supabase.from('project_documents').insert([document]).select().single()];
    - [update_document]:
      [supabase.from('project_documents').update({...document, updated_at}).eq('id', id)];
    - [select_orders] and [select_documents]: the queries of [fetchOrders]
      and [fetchProjectDocuments]. *)
Record Storage (DbError : Type) := mkStorage {
  delete_order : ProviderState -> string -> option DbError;
  insert_document :
    ProviderState -> NewProjectDocument.t -> DbError + ProjectDocument.t;
  update_document :
    ProviderState -> string -> DocumentPatch.t -> option DbError;
  select_orders : ProviderState -> select_answer DbError OrderRow.t;
  select_documents : ProviderState -> select_answer DbError ProjectDocument.t
}.
Arguments delete_order {DbError} _ _ _.
Arguments insert_document {DbError} _ _ _.
Arguments update_document {DbError} _ _ _ _.
Arguments select_orders {DbError} _ _.
Arguments select_documents {DbError} _ _.

Section ProviderStorage.
Context {DbError DeliveryError : Type}.
Variable db : Storage DbError.

Local Abbreviation Op A := (@M DbError DeliveryError A).

(** [data || []] *)
Definition or_empty {A} (data : option (list A)) : list A :=
  match data with
  | Some rows => rows
  | None => []
  end.

(** [fetchOrders] *)
Definition fetchOrders : Op unit :=
  bind (gets (fun st => select_orders db st)) (fun answer =>
  match answer with
  | SelectError error => ret tt
  | SelectThrown => ret tt
  | SelectData data =>
      let convertedOrders := map Order.of_row (or_empty data) in
      setOrders (fun _ => convertedOrders)
  end).

(** [fetchProjectDocuments] *)
Definition fetchProjectDocuments : Op unit :=
  bind (gets (fun st => select_documents db st)) (fun answer =>
  match answer with
  | SelectError error => ret tt
  | SelectThrown => setProjectDocuments (fun _ => [])
  | SelectData data => setProjectDocuments (fun _ => or_empty data)
  end).

(** [deleteOrder] *)
Definition deleteOrder (id : string) : Op unit :=
  bind (gets (fun st => delete_order db st id)) (fun answer =>
  match answer with
  | Some error => ret tt
  | None =>
      setOrders (fun prevOrders =>
        filter (fun order => negb (Order.id order =? id)) prevOrders)
  end).

(** [addProjectDocument] *)
Definition addProjectDocument (document : NewProjectDocument.t) : Op unit :=
  bind (gets (fun st => insert_document db st document)) (fun answer =>
  match answer with
  | inl error => throw (SupabaseError error)
  | inr data => setProjectDocuments (fun prevDocs => (prevDocs ++ [data])%list)
  end).

(** [updateProjectDocument] *)
Definition updateProjectDocument (id : string) (document : DocumentPatch.t)
  : Op unit :=
  bind (gets (fun st => update_document db st id document)) (fun answer =>
  match answer with
  | Some error => ret tt
  | None =>
      setProjectDocuments (fun prevDocs =>
        map (fun doc =>
               if ProjectDocument.id doc =? id
               then DocumentPatch.apply doc document
               else doc)
            prevDocs)
  end).

End ProviderStorage.

(** ** The functions of one render *)

Section ProviderRender.
Context {DbError DeliveryError : Type}.
Variable env : Collaborators DbError DeliveryError.

(** The functions below are those of the provider value made by one render.
    In them [orders] and [projectDocuments] are the constants of that render
    (the state [render] it saw), whatever the state has become by the time
    the function runs; only the call to the transport happens in the
    present. When the render is up to date they are the functions above. *)

(** [sendProjectDocumentsForOrder] of a render *)
Definition sendProjectDocumentsForOrder_of (render : ProviderState)
    (order : Order.t) (customerEmail customerName : string)
  : @M DbError DeliveryError unit :=
  try_catch
    (sendDocumentDelivery env
       (deliveryData render order customerEmail customerName))
    (fun error => throw error).

(** [sendProjectDocuments] of a render *)
Definition sendProjectDocuments_of (render : ProviderState)
    (orderId customerEmail customerName : string)
  : @M DbError DeliveryError unit :=
  try_catch
    (match find (fun o => Order.id o =? orderId) (orders render) with
     | None => throw (JsError "Order not found")
     | Some order =>
         sendProjectDocumentsForOrder_of render order customerEmail customerName
     end)
    (fun error => throw error).

End ProviderRender.

(** ** The rest of the admin page *)

(** The string a [DocumentStatus['status']] is. *)
Definition status_value (k : DocumentStatusKind) : string :=
  match k with
  | delivered => "delivered"
  | pending => "pending"
  | no_documents => "no-documents"
  | partial => "partial"
  end.

(** [stats] *)
Module Stats.
Record t := mk {
  total : nat;
  delivered : nat;
  pending : nat;
  noDocuments : nat;
  partial : nat
}.
End Stats.

Definition stats (st : ProviderState) : Stats.t :=
  let documentStatuses := documentStatuses st in
  {| Stats.total := length documentStatuses;
     Stats.delivered :=
       length (filter (fun s => status_value (DocumentStatus.status s) =? "delivered")
                 documentStatuses);
     Stats.pending :=
       length (filter (fun s => status_value (DocumentStatus.status s) =? "pending")
                 documentStatuses);
     Stats.noDocuments :=
       length (filter (fun s => status_value (DocumentStatus.status s) =? "no-documents")
                 documentStatuses);
     Stats.partial :=
       length (filter (fun s => status_value (DocumentStatus.status s) =? "partial")
                 documentStatuses) |}.

(** [statusOptions], as pairs of [value] and [label]. *)
Definition statusOptions : list (string * string) :=
  [ ("delivered", "Delivered");
    ("pending", "Pending Delivery");
    ("no-documents", "No Documents");
    ("partial", "Partial") ].

(** The [label] of [getStatusBadge]. *)
Definition getStatusBadge_label (status : DocumentStatusKind) : string :=
  match status with
  | delivered => "Delivered"
  | pending => "Pending Delivery"
  | no_documents => "No Documents"
  | partial => "Partial"
  end.

(** The text after "Status:" on the filter button:
    [statusFilter ? statusOptions.find(s => s.value === statusFilter)?.label : 'All'],
    [None] when [find] has no result. *)
Definition statusFilter_label (statusFilter : option string) : option string :=
  match statusFilter with
  | None => Some "All"
  | Some value =>
      if value =? "" then Some "All"
      else
        match find (fun s => fst s =? value) statusOptions with
        | Some s => Some (snd s)
        | None => None
        end
  end.

(** The status test of the callback of [filteredStatuses]:
    [statusFilter ? status.status === statusFilter : true]. *)
Definition matchesStatus (statusFilter : option string)
    (status : DocumentStatus.t) : bool :=
  match statusFilter with
  | None => true
  | Some value =>
      if value =? "" then true
      else status_value (DocumentStatus.status status) =? value
  end.

(** Whether a table row shows its "Delivered:" line:
    [status.lastDeliveryDate && (...)], an empty date being as good as
    none. *)
Definition showsDeliveryDate (status : DocumentStatus.t) : bool :=
  match DocumentStatus.lastDeliveryDate status with
  | Some date => negb (date =? "")
  | None => false
  end.

(** The two conditional buttons of a table row. *)
Definition showsUploadButton (status : DocumentStatus.t) : bool :=
  status_value (DocumentStatus.status status) =? "no-documents".

Definition showsSendButton (status : DocumentStatus.t) : bool :=
  ((status_value (DocumentStatus.status status) =? "pending")
   || (status_value (DocumentStatus.status status) =? "partial"))
  && (0 <? DocumentStatus.documentsCount status)%nat.

(** The component state of the page. *)
Record PageState := mkPage {
  searchTerm : string;
  statusFilter : option string;
  selectedOrder : option Order.t;
  showDetailsModal : bool
}.

(** [openDetailsModal] *)
Definition openDetailsModal (st : ProviderState) (page : PageState)
    (orderId : string) : PageState :=
  match find (fun o => Order.id o =? orderId) (orders st) with
  | Some order =>
      {| searchTerm := searchTerm page;
         statusFilter := statusFilter page;
         selectedOrder := Some order;
         showDetailsModal := true |}
  | None => page
  end.

(** The documents the details modal lists under a review stage. *)
Definition modalStageDocuments (st : ProviderState) (selectedOrder : Order.t)
    (stage : string) : list ProjectDocument.t :=
  filter (fun doc => (ProjectDocument.review_stage doc =? stage)
                     && ProjectDocument.is_active doc)
         (getProjectDocuments st (Order.projectId selectedOrder)).

(** The three boxes of "Recommended Actions" in the details modal. *)
Inductive Recommendation :=
| UploadDocuments
| SendDocuments
| DocumentsDelivered.

Definition recommendedAction (st : ProviderState) (selectedOrder : Order.t)
  : Recommendation :=
  let totalDocs := length (getProjectDocuments st (Order.projectId selectedOrder)) in
  if (totalDocs =? 0)%nat then UploadDocuments
  else if Order.status selectedOrder =? "pending" then SendDocuments
  else DocumentsDelivered.

(** ** Key conversion between camelCase and snake_case *)

From Stdlib Require Import Ascii.

(** The character classes [[A-Z]] and [[a-z]] of the two regular
    expressions, and the case change of one such letter. No other character
    is touched by the conversions. *)
Definition is_upper (c : ascii) : bool :=
  (65 <=? nat_of_ascii c)%nat && (nat_of_ascii c <=? 90)%nat.

Definition is_lower (c : ascii) : bool :=
  (97 <=? nat_of_ascii c)%nat && (nat_of_ascii c <=? 122)%nat.

Definition letter_toLowerCase (c : ascii) : ascii :=
  ascii_of_nat (nat_of_ascii c + 32).

Definition letter_toUpperCase (c : ascii) : ascii :=
  ascii_of_nat (nat_of_ascii c - 32).

Definition underscore : ascii := "_"%char.

(** [toSnakeCase]:
    [str.replace(/[A-Z]/g, letter => `_${letter.toLowerCase()}`)] *)
Fixpoint toSnakeCase (str : string) : string :=
  match str with
  | EmptyString => EmptyString
  | String letter rest =>
      if is_upper letter
      then String underscore (String (letter_toLowerCase letter) (toSnakeCase rest))
      else String letter (toSnakeCase rest)
  end.

(** [toCamelCase]:
    [str.replace(/_([a-z])/g, (_, letter) => letter.toUpperCase())].
    The matches are taken from left to right and do not overlap: after an
    underscore that no lower-case letter follows, the scan goes on at the
    next character. *)
Fixpoint toCamelCase (str : string) : string :=
  match str with
  | EmptyString => EmptyString
  | String c rest =>
      if Ascii.eqb c underscore then
        match rest with
        | EmptyString => String c EmptyString
        | String letter rest' =>
            if is_lower letter
            then String (letter_toUpperCase letter) (toCamelCase rest')
            else String c (toCamelCase rest)
        end
      else String c (toCamelCase rest)
  end.

(** A JavaScript value as the converters see it: an array, a plain object
    (its own keys in enumeration order, each key once), or anything else,
    which they return as it is. Numbers are only passed along, [Z] stands
    for them. *)
Inductive prim :=
| Undefined
| Null
| Boolean (b : bool)
| Number (n : Z)
| Str (s : string).

#[local] Unset Elimination Schemes.
Inductive value :=
| Prim (p : prim)
| Arr (items : list value)
| Obj (fields : list (string * value)).
#[local] Set Elimination Schemes.

(** Defining the own property [key] of [acc] with value [v], as an object
    spread does for each property it copies: an existing key keeps its place
    and gets the new value, a new key goes last. (JavaScript lists keys that
    are array indices first; the statements below that concern such keys go
    by [lookup], not by position.) *)
Fixpoint assign {V} (acc : list (string * V)) (key : string) (v : V)
  : list (string * V) :=
  match acc with
  | [] => [(key, v)]
  | (k, old) :: rest =>
      if k =? key then (k, v) :: rest else (k, old) :: assign rest key v
  end.

(** [acc[key] = v] on an object that began as the literal [{}]. For the key
    "__proto__", which such an object inherits as a setter, the assignment
    adds no key of the object's own: it sets or leaves the prototype, which
    none of the functions here reads. For every other key it is [assign]. *)
Definition set_property {V} (acc : list (string * V)) (key : string) (v : V)
  : list (string * V) :=
  if key =? "__proto__" then acc else assign acc key v.

(** [obj[key]], [None] for a key the object does not have. *)
Fixpoint lookup {V} (fields : list (string * V)) (key : string) : option V :=
  match fields with
  | [] => None
  | (k, v) :: rest => if k =? key then Some v else lookup rest key
  end.

(** [convertKeysToSnakeCase] *)
Fixpoint convertKeysToSnakeCase (obj : value) : value :=
  match obj with
  | Arr items => Arr (map convertKeysToSnakeCase items)
  | Obj fields =>
      Obj (fold_left
             (fun acc kv =>
                let snakeKey := toSnakeCase (fst kv) in
                set_property acc snakeKey (convertKeysToSnakeCase (snd kv)))
             fields [])
  | Prim _ => obj
  end.

(** [convertKeysToCamelCase] *)
Fixpoint convertKeysToCamelCase (obj : value) : value :=
  match obj with
  | Arr items => Arr (map convertKeysToCamelCase items)
  | Obj fields =>
      Obj (fold_left
             (fun acc kv =>
                let camelKey := toCamelCase (fst kv) in
                set_property acc camelKey (convertKeysToCamelCase (snd kv)))
             fields [])
  | Prim _ => obj
  end.

(** A string without [[A-Z]]; a string in which no underscore is directly
    followed by [[a-z]]. *)
Fixpoint no_upper (s : string) : bool :=
  match s with
  | EmptyString => true
  | String c rest => negb (is_upper c) && no_upper rest
  end.

Fixpoint no_underscore_lower (s : string) : bool :=
  match s with
  | EmptyString => true
  | String c rest =>
      match rest with
      | EmptyString => true
      | String d _ =>
          negb (Ascii.eqb c underscore && is_lower d)
      end
      && no_underscore_lower rest
  end.

(** The keys for which the round trips are stated: a key that comes back
    from snake_case and does not become "__proto__" on the way, and a key
    that comes back from camelCase and is not "__proto__" itself. *)
Definition snake_safe_key (k : string) : bool :=
  no_underscore_lower k && negb (toSnakeCase k =? "__proto__").

Definition camel_safe_key (k : string) : bool :=
  no_upper k && negb (k =? "__proto__").

(** The number of [[A-Z]] letters of a string. *)
Fixpoint count_upper (s : string) : nat :=
  match s with
  | EmptyString => 0
  | String c rest => (if is_upper c then 1 else 0) + count_upper rest
  end.

(** Every key of a value, at every depth, satisfies [ok], and no object has
    a key twice. *)
Fixpoint keys_ok (ok : string -> bool) (v : value) : Prop :=
  match v with
  | Prim _ => True
  | Arr items =>
      (fix all (l : list value) : Prop :=
         match l with
         | [] => True
         | x :: l' => keys_ok ok x /\ all l'
         end) items
  | Obj fields =>
      NoDup (map fst fields)
      /\ (fix all (l : list (string * value)) : Prop :=
            match l with
            | [] => True
            | kv :: l' => (ok (fst kv) = true /\ keys_ok ok (snd kv)) /\ all l'
            end) fields
  end.

(** ** Further notions used in the statements *)

(** The camelCase copies of an order agree with the database columns they
    were made from. *)
Definition camel_consistent (o : Order.t) : Prop :=
  Order.projectId o = Order.project_id o
  /\ Order.customerName o = Order.customer_name o
  /\ Order.customerEmail o = Order.customer_email o
  /\ Order.projectTitle o = Order.project_title o
  /\ Order.createdAt o = Order.created_at o
  /\ Order.updatedAt o = Order.updated_at o.

(** The last field of an object whose key satisfies [p]. *)
Definition last_field {V} (p : string -> bool) (fields : list (string * V))
  : option V :=
  match find (fun kv => p (fst kv)) (rev fields) with
  | Some kv => Some (snd kv)
  | None => None
  end.

(** The patch [{ is_active: false }]. *)
Definition deactivation : DocumentPatch.t :=
  {| DocumentPatch.id := None;
     DocumentPatch.project_id := None;
     DocumentPatch.name := None;
     DocumentPatch.url := None;
     DocumentPatch.type := None;
     DocumentPatch.size := None;
     DocumentPatch.review_stage := None;
     DocumentPatch.document_category := None;
     DocumentPatch.description := None;
     DocumentPatch.is_active := Some false;
     DocumentPatch.created_at := None;
     DocumentPatch.updated_at := None |}.

(** ** More sample data *)

Module MoreSamples.

(** A database that accepts every write and stores a new document under
    the id "d9". *)
Definition stored_document (d : NewProjectDocument.t) : ProjectDocument.t :=
  {| ProjectDocument.id := "d9";
     ProjectDocument.project_id := NewProjectDocument.project_id d;
     ProjectDocument.name := NewProjectDocument.name d;
     ProjectDocument.url := NewProjectDocument.url d;
     ProjectDocument.type := NewProjectDocument.type d;
     ProjectDocument.size := NewProjectDocument.size d;
     ProjectDocument.review_stage := NewProjectDocument.review_stage d;
     ProjectDocument.document_category := NewProjectDocument.document_category d;
     ProjectDocument.description := NewProjectDocument.description d;
     ProjectDocument.is_active := NewProjectDocument.is_active d;
     ProjectDocument.created_at := "2025-06-19T10:00:00Z";
     ProjectDocument.updated_at := "2025-06-19T10:00:00Z" |}.

Definition db_ok : Storage unit :=
  {| delete_order := fun _ _ => None;
     insert_document := fun _ d => inr (stored_document d);
     update_document := fun _ _ _ => None;
     select_orders := fun _ =>
       SelectData (Some [Samples.row "o1" "ann" "p1" "completed"]);
     select_documents := fun _ => SelectData (Some Samples.docs) |}.

(** A database whose client returns an error to every call. *)
Definition db_down : Storage unit :=
  {| delete_order := fun _ _ => Some tt;
     insert_document := fun _ _ => inl tt;
     update_document := fun _ _ _ => Some tt;
     select_orders := fun _ => SelectError tt;
     select_documents := fun _ => SelectError tt |}.

(** A database whose loaders throw. *)
Definition db_throwing : Storage unit :=
  {| delete_order := fun _ _ => Some tt;
     insert_document := fun _ _ => inl tt;
     update_document := fun _ _ _ => Some tt;
     select_orders := fun _ => SelectThrown;
     select_documents := fun _ => SelectThrown |}.

Definition new_document (project_id name review_stage : string)
    (is_active : bool) : NewProjectDocument.t :=
  {| NewProjectDocument.project_id := project_id;
     NewProjectDocument.name := name;
     NewProjectDocument.url := "https://files.example/" ++ name;
     NewProjectDocument.type := "application/pdf";
     NewProjectDocument.size := 2048;
     NewProjectDocument.review_stage := review_stage;
     NewProjectDocument.document_category := "document";
     NewProjectDocument.description := None;
     NewProjectDocument.is_active := is_active |}.

Definition page : PageState :=
  {| searchTerm := "";
     statusFilter := None;
     selectedOrder := None;
     showDetailsModal := false |}.

(** A project as a form would hand it over, and as a table row. *)
Definition project_form : value :=
  Obj [ ("title", Prim (Str "Compiler"));
        ("technicalDetails",
         Obj [ ("sourceLines", Prim (Number 1200));
               ("usedTools", Arr [Prim (Str "rocq"); Prim (Str "make")]) ]);
        ("updatedAt", Prim Null) ].

Definition project_row : value :=
  Obj [ ("title", Prim (Str "Compiler"));
        ("technical_details",
         Obj [ ("source_lines", Prim (Number 1200));
               ("used_tools", Arr [Prim (Str "rocq"); Prim (Str "make")]) ]);
        ("updated_at", Prim Null) ].

End MoreSamples.

(** The common shape of the two converters, with the key conversion as a
    parameter; used to reason about both at once. *)
Fixpoint convertKeysWith (convertKey : string -> string) (obj : value) : value :=
  match obj with
  | Arr items => Arr (map (convertKeysWith convertKey) items)
  | Obj fields =>
      Obj (fold_left
             (fun acc kv =>
                set_property acc (convertKey (fst kv))
                  (convertKeysWith convertKey (snd kv)))
             fields [])
  | Prim _ => obj
  end.

(** ** Projects and inquiries *)

(** The [projects] and [inquiries] state of the provider. Their element
    types are not part of the sources at hand; a project and an inquiry row
    are plain objects, given by their fields. *)
Record Catalog := mkCatalog {
  projects : list (list (string * value));
  inquiries : list (list (string * value))
}.

(** [o.id === id] for a string [id]. *)
Definition has_id (o : list (string * value)) (id : string) : bool :=
  match lookup o "id" with
  | Some (Prim (Str s)) => s =? id
  | _ => false
  end.

(** [{ ...target, ...source }] *)
Definition spread (target source : list (string * value))
  : list (string * value) :=
  fold_left (fun acc kv => assign acc (fst kv) (snd kv)) source target.

(** [const { imageUpload, ...rest } = o]: the fields of [rest]. *)
Definition without_imageUpload (o : list (string * value))
  : list (string * value) :=
  filter (fun kv => negb (fst kv =? "imageUpload")) o.

(** The argument of [addInquiry], by the fields the function reads. *)
Module Inquiry.
Record t := mk {
  name : value;
  email : value;
  projectType : value;
  budget : value;
  message : value
}.
End Inquiry.

(** The answers of the database for projects and inquiries; each write is
    given the row or the id the provider sends. *)
Record CatalogStorage (DbError : Type) := mkCatalogStorage {
  insert_project : Catalog -> value -> DbError + list (string * value);
  update_project : Catalog -> string -> value -> option DbError;
  delete_project : Catalog -> string -> option DbError;
  insert_inquiry : Catalog -> value -> DbError + list (string * value);
  delete_inquiry : Catalog -> string -> option DbError
}.
Arguments insert_project {DbError} _ _ _.
Arguments update_project {DbError} _ _ _ _.
Arguments delete_project {DbError} _ _ _.
Arguments insert_inquiry {DbError} _ _ _.
Arguments delete_inquiry {DbError} _ _ _.

(** The [snakeCaseData] of [addProject] and of [updateProject]. *)
Definition project_snakeCaseData (project : list (string * value)) : value :=
  convertKeysToSnakeCase (Obj (without_imageUpload project)).

(** The [snakeCaseData] of [addInquiry]. *)
Definition inquiry_snakeCaseData (inquiry : Inquiry.t) : value :=
  convertKeysToSnakeCase
    (Obj [ ("clientName", Inquiry.name inquiry);
           ("email", Inquiry.email inquiry);
           ("projectType", Inquiry.projectType inquiry);
           ("budget", Inquiry.budget inquiry);
           ("message", Inquiry.message inquiry) ]).

Section CatalogOperations.
Context {DbError : Type}.
Variable db : CatalogStorage DbError.

(** These five functions return after logging when the database reports an
    error; none of them throws. *)

(** [addProject] *)
Definition addProject (project : list (string * value)) (cat : Catalog)
  : Catalog :=
  match insert_project db cat (project_snakeCaseData project) with
  | inl error => cat
  | inr data =>
      {| projects := (projects cat ++ [data])%list;
         inquiries := inquiries cat |}
  end.

(** [updateProject] *)
Definition updateProject (id : string) (updatedData : list (string * value))
    (cat : Catalog) : Catalog :=
  match update_project db cat id (project_snakeCaseData updatedData) with
  | Some error => cat
  | None =>
      {| projects :=
           map (fun project =>
                  if has_id project id
                  then spread project updatedData
                  else project)
               (projects cat);
         inquiries := inquiries cat |}
  end.

(** [deleteProject] *)
Definition deleteProject (id : string) (cat : Catalog) : Catalog :=
  match delete_project db cat id with
  | Some error => cat
  | None =>
      {| projects := filter (fun project => negb (has_id project id))
                       (projects cat);
         inquiries := inquiries cat |}
  end.

(** [addInquiry] *)
Definition addInquiry (inquiry : Inquiry.t) (cat : Catalog) : Catalog :=
  match insert_inquiry db cat (inquiry_snakeCaseData inquiry) with
  | inl error => cat
  | inr data =>
      {| projects := projects cat;
         inquiries := (inquiries cat ++ [data])%list |}
  end.

(** [deleteInquiry] *)
Definition deleteInquiry (id : string) (cat : Catalog) : Catalog :=
  match delete_inquiry db cat id with
  | Some error => cat
  | None =>
      {| projects := projects cat;
         inquiries := filter (fun inquiry => negb (has_id inquiry id))
                        (inquiries cat) |}
  end.

End CatalogOperations.

Module CatalogSamples.

Definition compiler : list (string * value) :=
  [ ("id", Prim (Str "p1")); ("title", Prim (Str "Compiler"));
    ("technical_details", Prim (Str "old")) ].

Definition parser : list (string * value) :=
  [ ("id", Prim (Str "p2")); ("title", Prim (Str "Parser")) ].

Definition cat : Catalog :=
  {| projects := [compiler; parser]; inquiries := [] |}.

(** A database that accepts every write and stores a new row under the id
    "p9". *)
Definition db_ok : CatalogStorage unit :=
  {| insert_project := fun _ row =>
       inr (("id", Prim (Str "p9"))
            :: match row with Obj fields => fields | _ => [] end);
     update_project := fun _ _ _ => None;
     delete_project := fun _ _ => None;
     insert_inquiry := fun _ row =>
       inr (("id", Prim (Str "q9"))
            :: match row with Obj fields => fields | _ => [] end);
     delete_inquiry := fun _ _ => None |}.

Definition inquiry : Inquiry.t :=
  {| Inquiry.name := Prim (Str "Ann");
     Inquiry.email := Prim (Str "ann@example.com");
     Inquiry.projectType := Prim (Str "web");
     Inquiry.budget := Prim (Number 500);
     Inquiry.message := Prim (Str "Hello") |}.

End CatalogSamples.

(** ** Running the model on the samples *)

(** From here on [++] is the append of lists. *)
Open Scope list_scope.

Example documentStatuses_sample :
  map (fun s => (DocumentStatus.orderId s, DocumentStatus.status s,
                 DocumentStatus.documentsCount s))
      (documentStatuses Samples.st)
  = [ ("o1", delivered, 3); ("o2", pending, 3);
      ("o3", no_documents, 0); ("o4", partial, 1) ].
Proof. reflexivity. Qed.

Example addOrder_sample_ok :
  let '(r, st1) := addOrder Samples.env_ok
                     (Samples.new_order "zoe" "p3" "pending") Samples.st in
  r = Ok (Order.of_row (Samples.stored
            (snakeCaseData (Samples.new_order "zoe" "p3" "pending"))))
  /\ length (orders st1) = 5
  /\ map DocumentDeliveryData.order_id (deliveryCalls st1) = ["o9"]
  /\ map DocumentDeliveryData.documents (deliveryCalls st1) = [[]].
Proof. cbv. repeat split. Qed.

Example addOrder_sample_db_down :
  addOrder Samples.env_db_down (Samples.new_order "zoe" "p1" "pending") Samples.st
  = (Throw (SupabaseError tt), Samples.st).
Proof. reflexivity. Qed.

Example sendProjectDocuments_sample_missing :
  sendProjectDocuments Samples.env_ok "o7" "x@example.com" "x" Samples.st
  = (Throw (JsError "Order not found"), Samples.st).
Proof. reflexivity. Qed.

(** ** Facts about the pure derivations *)

Lemma determine_status_spec (order_status : string) (n : nat) :
  determine_status order_status n = classification_spec order_status n.
Proof.
  unfold determine_status, cond_no_documents, cond_delivered, cond_pending.
  destruct n as [|n]; simpl; [reflexivity|].
  rewrite andb_true_r.
  destruct (order_status =? "completed"); [reflexivity|].
  destruct (order_status =? "pending"); reflexivity.
Qed.

Lemma length_filter_review_stage (stage : string)
    (documents : list ProjectDocument.t) :
  length (filter (fun doc => ProjectDocument.review_stage doc =? stage) documents)
  = count_review_stage stage documents.
Proof.
  induction documents as [|doc rest IH]; simpl; [reflexivity|].
  destruct (ProjectDocument.review_stage doc =? stage); simpl; now rewrite IH.
Qed.

Lemma count_review_stages_total (documents : list ProjectDocument.t) :
  Forall (fun doc =>
            ProjectDocument.review_stage doc = "review_1"
            \/ ProjectDocument.review_stage doc = "review_2"
            \/ ProjectDocument.review_stage doc = "review_3") documents ->
  count_review_stage "review_1" documents
  + count_review_stage "review_2" documents
  + count_review_stage "review_3" documents
  = length documents.
Proof.
  induction 1 as [|doc rest Hdoc _ IH]; simpl; [reflexivity|].
  destruct Hdoc as [H|[H|H]]; rewrite H; simpl; lia.
Qed.

Lemma getProjectDocuments_In (st : ProviderState) (projectId : string)
    (doc : ProjectDocument.t) :
  In doc (getProjectDocuments st projectId)
  <-> In doc (projectDocuments st)
      /\ ProjectDocument.project_id doc = projectId
      /\ ProjectDocument.is_active doc = true.
Proof.
  unfold getProjectDocuments.
  rewrite filter_In, andb_true_iff, String.eqb_eq. tauto.
Qed.

Lemma filter_filter_and {A} (f g : A -> bool) (l : list A) :
  filter f (filter g l) = filter (fun x => f x && g x) l.
Proof.
  induction l as [|x l IH]; simpl; [reflexivity|].
  destruct (g x); simpl.
  - rewrite andb_true_r. destruct (f x); now rewrite IH.
  - now rewrite andb_false_r.
Qed.

Lemma getProjectDocuments_without_inactive (st : ProviderState)
    (projectId : string) :
  getProjectDocuments (without_inactive st) projectId
  = getProjectDocuments st projectId.
Proof.
  unfold getProjectDocuments, without_inactive; simpl.
  rewrite filter_filter_and.
  apply filter_ext. intros doc.
  destruct (ProjectDocument.is_active doc);
    now rewrite ?andb_true_r, ?andb_false_r.
Qed.

(** ** The classification (C1, C5, C7) *)

Lemma length_getProjectDocuments (st : ProviderState) (projectId : string) :
  length (getProjectDocuments st projectId)
  = active_document_count (projectDocuments st) projectId.
Proof.
  unfold getProjectDocuments.
  induction (projectDocuments st) as [|doc rest IH]; simpl; [reflexivity|].
  destruct (ProjectDocument.is_active doc),
           (ProjectDocument.project_id doc =? projectId); simpl;
    now rewrite ?IH.
Qed.

(** C1. For every order, the status of its derived record is the
    specification's classification of the order's lifecycle status and the
    number of active documents of its project in the [projectDocuments]
    state, counted document by document: no-documents when there is none,
    else delivered for "completed", else pending for "pending", else
    partial. The same holds for the whole list the page computes, and the
    list [getProjectDocuments] returns has exactly that many documents. *)
Theorem C1_derived_status_classification (st : ProviderState) :
  (forall order : Order.t,
     DocumentStatus.status (documentStatus st order)
     = classification_spec (Order.status order)
         (active_document_count (projectDocuments st) (Order.projectId order)))
  /\ map DocumentStatus.status (documentStatuses st)
     = map (fun order =>
              classification_spec (Order.status order)
                (active_document_count (projectDocuments st)
                   (Order.projectId order)))
           (orders st)
  /\ (forall projectId,
        length (getProjectDocuments st projectId)
        = active_document_count (projectDocuments st) projectId).
Proof.
  split; [|split].
  - intros order. simpl.
    rewrite determine_status_spec. f_equal. apply length_getProjectDocuments.
  - unfold documentStatuses. rewrite map_map.
    apply map_ext. intros order. simpl.
    rewrite determine_status_spec. f_equal. apply length_getProjectDocuments.
  - intros projectId. apply length_getProjectDocuments.
Qed.

(** The classification of the four sample orders, with the counts taken
    document by document: p1 has three active documents (one more is
    inactive, one belongs to p2), p2 one, p3 none. *)
Example classification_sample :
  map (fun order =>
         (active_document_count (projectDocuments Samples.st) (Order.projectId order),
          DocumentStatus.status (documentStatus Samples.st order)))
      (orders Samples.st)
  = [ (3, delivered); (3, pending); (0, no_documents); (1, partial) ].
Proof. reflexivity. Qed.

(** C5. Two orders, possibly seen in two different states, that agree on
    their lifecycle status and on the number of active documents of their
    projects get the same classification, whatever their other fields and
    whatever the documents are. *)
Theorem C5_classification_depends_on_status_and_count
    (st1 st2 : ProviderState) (order1 order2 : Order.t) :
  Order.status order1 = Order.status order2 ->
  length (getProjectDocuments st1 (Order.projectId order1))
  = length (getProjectDocuments st2 (Order.projectId order2)) ->
  DocumentStatus.status (documentStatus st1 order1)
  = DocumentStatus.status (documentStatus st2 order2).
Proof.
  intros Hstatus Hcount. simpl. now rewrite Hstatus, Hcount.
Qed.

Lemma C5_witness :
  Samples.o1 <> Samples.o5
  /\ DocumentStatus.status (documentStatus Samples.st Samples.o1)
     = DocumentStatus.status (documentStatus Samples.st' Samples.o5).
Proof.
  split.
  - discriminate.
  - apply (C5_classification_depends_on_status_and_count
             Samples.st Samples.st' Samples.o1 Samples.o5);
      reflexivity.
Defined.

(** C7. For every lifecycle status and every document count, exactly one of
    the four conditions of the classifier holds (no-documents, delivered,
    pending, and the else branch), and the classifier returns the state of
    the condition that holds. *)
Theorem C7_conditions_exclusive_and_exhaustive
    (order_status : string) (totalDocuments : nat) :
  holding [ cond_no_documents totalDocuments;
            cond_delivered order_status totalDocuments;
            cond_pending order_status totalDocuments;
            cond_partial order_status totalDocuments ] = 1
  /\ (determine_status order_status totalDocuments = no_documents
      <-> cond_no_documents totalDocuments = true)
  /\ (determine_status order_status totalDocuments = delivered
      <-> cond_delivered order_status totalDocuments = true)
  /\ (determine_status order_status totalDocuments = pending
      <-> cond_pending order_status totalDocuments = true)
  /\ (determine_status order_status totalDocuments = partial
      <-> cond_partial order_status totalDocuments = true).
Proof.
  unfold holding, determine_status, cond_partial, cond_no_documents,
    cond_delivered, cond_pending.
  destruct totalDocuments as [|n]; simpl.
  - rewrite !andb_false_r. simpl. repeat split; intros; congruence.
  - rewrite !andb_true_r.
    destruct (String.eqb_spec order_status "completed") as [Hc|Hc].
    + subst order_status. simpl. repeat split; intros; congruence.
    + destruct (order_status =? "pending"); simpl;
        repeat split; intros; congruence.
Qed.

(** ** Counts (C6) and the active-document filter (C8) *)

(** C6. The derived record of an order reports as [documentsCount] the
    number of active documents of the order's project and, for each of
    review_1, review_2 and review_3, the number of those documents at that
    stage; when every one of those documents is at one of the three stages,
    the three counts add up to [documentsCount]. *)
Theorem C6_counts (st : ProviderState) (order : Order.t) :
  let documents := getProjectDocuments st (Order.projectId order) in
  let derived := documentStatus st order in
  let stages := DocumentStatus.reviewStages derived in
  DocumentStatus.documentsCount derived = length documents
  /\ ReviewStages.review_1 stages = count_review_stage "review_1" documents
  /\ ReviewStages.review_2 stages = count_review_stage "review_2" documents
  /\ ReviewStages.review_3 stages = count_review_stage "review_3" documents
  /\ ((forall doc, In doc documents ->
         ProjectDocument.review_stage doc = "review_1"
         \/ ProjectDocument.review_stage doc = "review_2"
         \/ ProjectDocument.review_stage doc = "review_3") ->
      ReviewStages.review_1 stages + ReviewStages.review_2 stages
      + ReviewStages.review_3 stages
      = DocumentStatus.documentsCount derived).
Proof.
  intros documents derived stages. subst derived stages. simpl.
  fold documents.
  rewrite !length_filter_review_stage.
  repeat split.
  intros Hstages. apply count_review_stages_total.
  now apply Forall_forall.
Qed.

Lemma C6_witness :
  let derived := documentStatus Samples.st Samples.o1 in
  let stages := DocumentStatus.reviewStages derived in
  (ReviewStages.review_1 stages, ReviewStages.review_2 stages,
   ReviewStages.review_3 stages, DocumentStatus.documentsCount derived)
  = (1, 1, 1, 3)
  /\ ReviewStages.review_1 stages + ReviewStages.review_2 stages
     + ReviewStages.review_3 stages
     = DocumentStatus.documentsCount derived.
Proof.
  split; [reflexivity|].
  apply (C6_counts Samples.st Samples.o1).
  intros doc Hin. simpl in Hin.
  destruct Hin as [H|[H|[H|[]]]]; subst doc; simpl; auto.
Defined.

(** When a document is at some other stage, the three counts fall short of
    [documentsCount]: the condition of C6 is needed. *)
Example counts_fall_short_with_other_stage :
  let derived := documentStatus Samples.st' Samples.o5 in
  let stages := DocumentStatus.reviewStages derived in
  ReviewStages.review_1 stages + ReviewStages.review_2 stages
  + ReviewStages.review_3 stages = 2
  /\ DocumentStatus.documentsCount derived = 3.
Proof. split; reflexivity. Qed.

(** C8. [getProjectDocuments] returns exactly the documents of the state
    that belong to the project and are active, in the order of the state.
    Hence inactive documents take no part in derived statuses or in
    manifests: every manifest entry comes from an active document of the
    state, and dropping the inactive documents from the state changes
    neither the derived record of any order nor any manifest. *)
Theorem C8_getProjectDocuments_active_only
    (st : ProviderState) (projectId : string) :
  (forall doc,
     In doc (getProjectDocuments st projectId)
     <-> In doc (projectDocuments st)
         /\ ProjectDocument.project_id doc = projectId
         /\ ProjectDocument.is_active doc = true)
  /\ getProjectDocuments st projectId
     = filter (fun doc => ProjectDocument.is_active doc)
         (filter (fun doc => ProjectDocument.project_id doc =? projectId)
            (projectDocuments st))
  /\ (forall order : Order.t,
        documentStatus (without_inactive st) order = documentStatus st order)
  /\ (forall (order : Order.t) (customerEmail customerName : string),
        deliveryData (without_inactive st) order customerEmail customerName
        = deliveryData st order customerEmail customerName)
  /\ (forall (order : Order.t) (customerEmail customerName : string) entry,
        In entry (DocumentDeliveryData.documents
                    (deliveryData st order customerEmail customerName)) ->
        exists doc,
          In doc (projectDocuments st)
          /\ ProjectDocument.is_active doc = true
          /\ ProjectDocument.project_id doc = Order.projectId order
          /\ entry = formatDocument doc).
Proof.
  split; [intros doc; apply getProjectDocuments_In|].
  split; [|split; [|split]].
  - unfold getProjectDocuments. rewrite filter_filter_and.
    apply filter_ext. intros doc. apply andb_comm.
  - intros order. unfold documentStatus.
    now rewrite getProjectDocuments_without_inactive.
  - intros order customerEmail customerName. unfold deliveryData.
    now rewrite getProjectDocuments_without_inactive.
  - intros order customerEmail customerName entry Hin. simpl in Hin.
    apply in_map_iff in Hin. destruct Hin as (doc & Hentry & Hdoc).
    apply getProjectDocuments_In in Hdoc.
    destruct Hdoc as (Hst & Hproject & Hactive).
    exists doc. auto.
Qed.

(** After a successful [deleteProjectDocument] no document with that id is
    left for any project. *)
Lemma deleteProjectDocument_removes {DbError DeliveryError : Type}
    (env : Collaborators DbError DeliveryError) (st : ProviderState)
    (id projectId : string) :
  deactivate_document env st id = None ->
  forall doc,
    In doc (getProjectDocuments (snd (deleteProjectDocument env id st)) projectId) ->
    ProjectDocument.id doc <> id.
Proof.
  intros Hok doc Hin.
  unfold deleteProjectDocument, bind, gets in Hin. rewrite Hok in Hin.
  apply getProjectDocuments_In in Hin. destruct Hin as (Hin & _ & _).
  simpl in Hin. apply filter_In in Hin. destruct Hin as (_ & Hne).
  apply negb_true_iff in Hne. now apply String.eqb_neq.
Qed.

(** ** Running the provider's operations *)

Section Runs.
Context {DbError DeliveryError : Type}.
Variable env : Collaborators DbError DeliveryError.

Lemma sendProjectDocumentsForOrder_run (order : Order.t)
    (customerEmail customerName : string) (st : ProviderState) :
  sendProjectDocumentsForOrder env order customerEmail customerName st
  = (match delivery_outcome env st
             (deliveryData st order customerEmail customerName) with
     | None => Ok tt
     | Some e => Throw (DeliveryRejected e)
     end,
     record_delivery_call st
       (deliveryData st order customerEmail customerName)).
Proof.
  unfold sendProjectDocumentsForOrder, try_catch, bind, gets,
    sendDocumentDelivery, throw.
  now destruct (delivery_outcome env st _).
Qed.

Lemma addOrder_run_inserted (order : NewOrder.t) (st : ProviderState)
    (data : OrderRow.t) :
  insert_order env st (snakeCaseData order) = inr data ->
  let convertedOrder := Order.of_row data in
  let st1 := with_orders st (orders st ++ [convertedOrder]) in
  addOrder env order st
  = (Ok convertedOrder,
     record_delivery_call st1
       (deliveryData st1 convertedOrder
          (NewOrder.customerEmail order) (NewOrder.customerName order))).
Proof.
  intros Hinsert convertedOrder st1.
  unfold addOrder, bind, gets. rewrite Hinsert.
  unfold setOrders, try_catch. fold convertedOrder st1.
  rewrite sendProjectDocumentsForOrder_run.
  now destruct (delivery_outcome env st1 _).
Qed.

Lemma addOrder_run_refused (order : NewOrder.t) (st : ProviderState)
    (error : DbError) :
  insert_order env st (snakeCaseData order) = inl error ->
  addOrder env order st = (Throw (SupabaseError error), st).
Proof.
  intros Hinsert. unfold addOrder, bind, gets. now rewrite Hinsert.
Qed.

Lemma sendProjectDocuments_run (orderId customerEmail customerName : string)
    (st : ProviderState) :
  sendProjectDocuments env orderId customerEmail customerName st
  = match find (fun o => Order.id o =? orderId) (orders st) with
    | None => (Throw (JsError "Order not found"), st)
    | Some order =>
        sendProjectDocumentsForOrder env order customerEmail customerName st
    end.
Proof.
  unfold sendProjectDocuments, try_catch, bind, gets, throw.
  destruct (find _ (orders st)) as [order|]; [|reflexivity].
  rewrite sendProjectDocumentsForOrder_run.
  now destruct (delivery_outcome env st _).
Qed.

End Runs.

Lemma manifest_spec_formatted (documents : list ProjectDocument.t)
    (projectId : string) :
  map formatDocument
    (filter (fun doc => (ProjectDocument.project_id doc =? projectId)
                        && ProjectDocument.is_active doc) documents)
  = manifest_spec documents projectId.
Proof.
  induction documents as [|doc rest IH]; simpl; [reflexivity|].
  destruct (ProjectDocument.is_active doc),
           (ProjectDocument.project_id doc =? projectId); simpl;
    now rewrite IH.
Qed.

Lemma find_order_none (orderId : string) (l : list Order.t) :
  find (fun o => Order.id o =? orderId) l = None
  <-> ~ (exists o, In o l /\ Order.id o = orderId).
Proof.
  split.
  - intros Hnone (o & Hin & Hid).
    apply (find_none _ _ Hnone) in Hin.
    apply String.eqb_neq in Hin. contradiction.
  - intros Hno. destruct (find _ l) as [o|] eqn:Hfind; [|reflexivity].
    exfalso. apply Hno. exists o.
    apply find_some in Hfind. destruct Hfind as (Hin & Hid).
    apply String.eqb_eq in Hid. auto.
Qed.

Lemma Forall2_map_self {A B} (R : A -> B -> Prop) (f : A -> B) (l : list A) :
  (forall x, R x (f x)) -> Forall2 R l (map f l).
Proof.
  intros HR. induction l as [|x l IH]; simpl; constructor; auto.
Qed.

Lemma with_status_same_except_status (order : Order.t) (status : string) :
  same_except_status order (Order.with_status order status)
  /\ Order.status (Order.with_status order status) = status.
Proof. unfold same_except_status. simpl. tauto. Qed.

(** ** The notification contract (C2, C3, C4) *)

(** C2. When the insert of [addOrder] succeeds, exactly one call to
    [sendDocumentDelivery] is made during [addOrder], and it is the one for
    the inserted order; nothing is asked about the documents of the project.
    When the insert fails, [addOrder] throws the database error and no call
    is made. *)
Theorem C2_addOrder_notifies_exactly_once {DbError DeliveryError : Type}
    (env : Collaborators DbError DeliveryError)
    (st : ProviderState) (order : NewOrder.t) :
  (forall data,
     insert_order env st (snakeCaseData order) = inr data ->
     exists payload,
       deliveryCalls (snd (addOrder env order st))
       = deliveryCalls st ++ [payload]
       /\ DocumentDeliveryData.order_id payload = OrderRow.id data)
  /\ (forall error,
        insert_order env st (snakeCaseData order) = inl error ->
        fst (addOrder env order st) = Throw (SupabaseError error)
        /\ deliveryCalls (snd (addOrder env order st)) = deliveryCalls st).
Proof.
  split.
  - intros data Hinsert.
    rewrite (addOrder_run_inserted env order st data Hinsert). simpl.
    eexists. split; reflexivity.
  - intros error Hinsert.
    rewrite (addOrder_run_refused env order st error Hinsert). auto.
Qed.

Lemma C2_witness :
  (exists payload,
     deliveryCalls (snd (addOrder Samples.env_ok
                           (Samples.new_order "zoe" "p3" "pending") Samples.st))
     = deliveryCalls Samples.st ++ [payload]
     /\ DocumentDeliveryData.order_id payload = "o9")
  /\ deliveryCalls (snd (addOrder Samples.env_db_down
                           (Samples.new_order "zoe" "p1" "pending") Samples.st))
     = deliveryCalls Samples.st.
Proof.
  split.
  - apply (proj1 (C2_addOrder_notifies_exactly_once Samples.env_ok Samples.st
                    (Samples.new_order "zoe" "p3" "pending"))
             (Samples.stored
                (snakeCaseData (Samples.new_order "zoe" "p3" "pending")))).
    reflexivity.
  - apply (proj2 (C2_addOrder_notifies_exactly_once Samples.env_db_down
                    Samples.st (Samples.new_order "zoe" "p1" "pending")) tt).
    reflexivity.
Defined.

(** C3. When the insert of [addOrder] succeeds and the notification call
    then fails, [addOrder] still returns the converted order instead of
    throwing, the order is in the [orders] state (appended to what was
    there), and the failed call is the only call made: there is no retry. *)
Theorem C3_addOrder_swallows_notifier_failure {DbError DeliveryError : Type}
    (env : Collaborators DbError DeliveryError)
    (st : ProviderState) (order : NewOrder.t)
    (data : OrderRow.t) (failure : DeliveryError) :
  let convertedOrder := Order.of_row data in
  let st1 := with_orders st (orders st ++ [convertedOrder]) in
  let payload :=
    deliveryData st1 convertedOrder
      (NewOrder.customerEmail order) (NewOrder.customerName order) in
  insert_order env st (snakeCaseData order) = inr data ->
  delivery_outcome env st1 payload = Some failure ->
  fst (sendProjectDocumentsForOrder env convertedOrder
         (NewOrder.customerEmail order) (NewOrder.customerName order) st1)
  = Throw (DeliveryRejected failure)
  /\ fst (addOrder env order st) = Ok convertedOrder
  /\ orders (snd (addOrder env order st)) = orders st ++ [convertedOrder]
  /\ In convertedOrder (orders (snd (addOrder env order st)))
  /\ deliveryCalls (snd (addOrder env order st))
     = deliveryCalls st ++ [payload].
Proof.
  intros convertedOrder st1 payload Hinsert Hfailure.
  split.
  - rewrite sendProjectDocumentsForOrder_run. fold payload.
    now rewrite Hfailure.
  - rewrite (addOrder_run_inserted env order st data Hinsert). simpl.
    repeat split. apply in_or_app. right. now left.
Qed.

Lemma C3_witness :
  let order := Samples.new_order "zoe" "p1" "pending" in
  let convertedOrder := Order.of_row (Samples.stored (snakeCaseData order)) in
  fst (addOrder Samples.env_mail_down order Samples.st) = Ok convertedOrder
  /\ In convertedOrder (orders (snd (addOrder Samples.env_mail_down order Samples.st)))
  /\ length (deliveryCalls (snd (addOrder Samples.env_mail_down order Samples.st)))
     = 1.
Proof.
  intros order convertedOrder.
  destruct (C3_addOrder_swallows_notifier_failure Samples.env_mail_down
              Samples.st order (Samples.stored (snakeCaseData order)) tt
              eq_refl eq_refl) as (_ & Hret & _ & Hin & Hcalls).
  split; [exact Hret|]. split; [exact Hin|].
  rewrite Hcalls. reflexivity.
Defined.

(** C4. The call made by [sendProjectDocumentsForOrder] carries as
    [documents] the full manifest of the order's project: every active
    document of the state whose project is the order's [projectId], each
    reduced to name, url, category, review stage and size. With no such
    document the call is made all the same, with the empty manifest. The
    notification of [addOrder] carries the manifest of the inserted order's
    project in the same way. *)
Theorem C4_payload_is_full_manifest {DbError DeliveryError : Type}
    (env : Collaborators DbError DeliveryError)
    (st : ProviderState) :
  (forall (order : Order.t) (customerEmail customerName : string),
     exists payload,
       deliveryCalls
         (snd (sendProjectDocumentsForOrder env order customerEmail customerName st))
       = deliveryCalls st ++ [payload]
       /\ DocumentDeliveryData.documents payload
          = manifest_spec (projectDocuments st) (Order.projectId order)
       /\ (getProjectDocuments st (Order.projectId order) = [] ->
           DocumentDeliveryData.documents payload = []))
  /\ (forall (order : NewOrder.t) (data : OrderRow.t),
        insert_order env st (snakeCaseData order) = inr data ->
        exists payload,
          deliveryCalls (snd (addOrder env order st))
          = deliveryCalls st ++ [payload]
          /\ DocumentDeliveryData.documents payload
             = manifest_spec (projectDocuments st) (OrderRow.project_id data)).
Proof.
  split.
  - intros order customerEmail customerName.
    rewrite sendProjectDocumentsForOrder_run. simpl.
    eexists. split; [reflexivity|]. simpl. split.
    + apply manifest_spec_formatted.
    + intros Hnone. now rewrite Hnone.
  - intros order data Hinsert.
    rewrite (addOrder_run_inserted env order st data Hinsert). simpl.
    eexists. split; [reflexivity|]. simpl.
    apply manifest_spec_formatted.
Qed.

Lemma C4_witness :
  exists payload,
    deliveryCalls
      (snd (sendProjectDocumentsForOrder Samples.env_ok Samples.o3
              "cyd@example.com" "cyd" Samples.st))
    = [payload]
    /\ DocumentDeliveryData.documents payload = [].
Proof.
  destruct (proj1 (C4_payload_is_full_manifest Samples.env_ok Samples.st)
              Samples.o3 "cyd@example.com" "cyd")
    as (payload & Hcalls & _ & Hempty).
  exists payload. split; [exact Hcalls|].
  apply Hempty. reflexivity.
Defined.

Example manifest_sample :
  map FormattedDocument.name
    (DocumentDeliveryData.documents
       (deliveryData Samples.st Samples.o1 "ann@example.com" "ann"))
  = ["slides.pdf"; "report.pdf"; "final.pdf"].
Proof. reflexivity. Qed.

(** ** Sending on request (C9) *)

(** C9. [sendProjectDocuments] throws the error "Order not found" exactly
    when the [orders] state holds no order with the given id, and then makes
    no call. When the state holds such an order, it does what the notifier
    of order creation, [sendProjectDocumentsForOrder], does for the first
    such order: one call, with the same payload, the full manifest of the
    order's project included. *)
Theorem C9_sendProjectDocuments {DbError DeliveryError : Type}
    (env : Collaborators DbError DeliveryError)
    (st : ProviderState) (orderId customerEmail customerName : string) :
  (fst (sendProjectDocuments env orderId customerEmail customerName st)
   = Throw (JsError "Order not found")
   <-> ~ (exists order, In order (orders st) /\ Order.id order = orderId))
  /\ (~ (exists order, In order (orders st) /\ Order.id order = orderId) ->
      snd (sendProjectDocuments env orderId customerEmail customerName st) = st)
  /\ ((exists order, In order (orders st) /\ Order.id order = orderId) ->
      exists order,
        In order (orders st) /\ Order.id order = orderId
        /\ sendProjectDocuments env orderId customerEmail customerName st
           = sendProjectDocumentsForOrder env order customerEmail customerName st
        /\ deliveryCalls
             (snd (sendProjectDocuments env orderId customerEmail customerName st))
           = deliveryCalls st
             ++ [deliveryData st order customerEmail customerName]
        /\ DocumentDeliveryData.documents
             (deliveryData st order customerEmail customerName)
           = manifest_spec (projectDocuments st) (Order.projectId order)).
Proof.
  rewrite sendProjectDocuments_run.
  destruct (find (fun o => Order.id o =? orderId) (orders st)) as [order|] eqn:Hfind.
  - assert (Hsome : exists o, In o (orders st) /\ Order.id o = orderId).
    { exists order. apply find_some in Hfind. destruct Hfind as (Hin & Hid).
      apply String.eqb_eq in Hid. auto. }
    split; [|split].
    + rewrite sendProjectDocumentsForOrder_run. simpl. split.
      * destruct (delivery_outcome env st _); discriminate.
      * intros Hno. contradiction.
    + intros Hno. contradiction.
    + intros _. exists order.
      apply find_some in Hfind. destruct Hfind as (Hin & Hid).
      apply String.eqb_eq in Hid.
      repeat split; auto.
      * now rewrite sendProjectDocumentsForOrder_run.
      * apply manifest_spec_formatted.
  - apply find_order_none in Hfind.
    split; [|split].
    + simpl. tauto.
    + reflexivity.
    + intros Hsome. contradiction.
Qed.

Lemma C9_witness :
  fst (sendProjectDocuments Samples.env_ok "o7" "x@example.com" "x" Samples.st)
  = Throw (JsError "Order not found")
  /\ exists order,
       Order.id order = "o2"
       /\ deliveryCalls
            (snd (sendProjectDocuments Samples.env_ok "o2" "bob@example.com"
                    "bob" Samples.st))
          = [deliveryData Samples.st order "bob@example.com" "bob"].
Proof.
  split.
  - apply (proj1 (C9_sendProjectDocuments Samples.env_ok Samples.st
                    "o7" "x@example.com" "x")).
    intros (order & Hin & Hid). simpl in Hin.
    destruct Hin as [H|[H|[H|[H|[]]]]]; subst order; discriminate.
  - destruct (proj2 (proj2 (C9_sendProjectDocuments Samples.env_ok Samples.st
                              "o2" "bob@example.com" "bob")))
      as (order & _ & Hid & _ & Hcalls & _).
    + exists Samples.o2. split; [simpl; auto | reflexivity].
    + exists order. split; [exact Hid | exact Hcalls].
Defined.

(** ** Updating an order's status (C10) *)

(** C10. After a successful [updateOrderStatus id status] the [orders] state
    is the old one position by position: an order with the given id has its
    [status] set to the new value and every other field as before
    ([updated_at] and [updatedAt] included), an order with another id is the
    same order. The documents and the delivery log are untouched. *)
Theorem C10_updateOrderStatus_frame {DbError DeliveryError : Type}
    (env : Collaborators DbError DeliveryError)
    (st : ProviderState) (id status : string) :
  update_order_status env st id status = None ->
  fst (updateOrderStatus env id status st) = Ok tt
  /\ Forall2
       (fun old new =>
          (Order.id old = id ->
           Order.status new = status /\ same_except_status old new)
          /\ (Order.id old <> id -> new = old))
       (orders st) (orders (snd (updateOrderStatus env id status st)))
  /\ projectDocuments (snd (updateOrderStatus env id status st))
     = projectDocuments st
  /\ deliveryCalls (snd (updateOrderStatus env id status st))
     = deliveryCalls st.
Proof.
  intros Hok. unfold updateOrderStatus, bind, gets. rewrite Hok. simpl.
  repeat split.
  apply Forall2_map_self. intros order.
  destruct (String.eqb_spec (Order.id order) id) as [Hid|Hid].
  - split; [|contradiction].
    intros _. destruct (with_status_same_except_status order status). auto.
  - split; [contradiction|reflexivity].
Qed.

Lemma C10_witness :
  map (fun o => (Order.id o, Order.status o, Order.updated_at o))
      (orders (snd (updateOrderStatus Samples.env_ok "o2" "completed" Samples.st)))
  = [ ("o1", "completed", "2025-06-17T13:59:31Z");
      ("o2", "completed", "2025-06-17T13:59:31Z");
      ("o3", "completed", "2025-06-17T13:59:31Z");
      ("o4", "processing", "2025-06-17T13:59:31Z") ]
  /\ Forall2
       (fun old new =>
          (Order.id old = "o2" ->
           Order.status new = "completed" /\ same_except_status old new)
          /\ (Order.id old <> "o2" -> new = old))
       (orders Samples.st)
       (orders (snd (updateOrderStatus Samples.env_ok "o2" "completed" Samples.st))).
Proof.
  split; [reflexivity|].
  apply (C10_updateOrderStatus_frame Samples.env_ok Samples.st "o2" "completed").
  reflexivity.
Defined.

(** When the database refuses the update, the state is left as it was and
    nothing is thrown. *)
Lemma updateOrderStatus_refused {DbError DeliveryError : Type}
    (env : Collaborators DbError DeliveryError)
    (st : ProviderState) (id status : string) (error : DbError) :
  update_order_status env st id status = Some error ->
  updateOrderStatus env id status st = (Ok tt, st).
Proof.
  intros Hrefused. unfold updateOrderStatus, bind, gets. now rewrite Hrefused.
Qed.

(** ** More of the provider: deleting, loading, composing *)

Lemma find_order_app_new (orderId : string) (l : list Order.t) (o : Order.t) :
  (forall old, In old l -> Order.id old <> orderId) ->
  Order.id o = orderId ->
  find (fun x => Order.id x =? orderId) (l ++ [o]) = Some o.
Proof.
  intros Hfresh Hid. induction l as [|x l IH]; simpl.
  - now rewrite Hid, String.eqb_refl.
  - destruct (String.eqb_spec (Order.id x) orderId) as [Heq|Hne].
    + exfalso. apply (Hfresh x); [now left | exact Heq].
    + apply IH. intros old Hin. apply Hfresh. now right.
Qed.

Lemma js_or_same (a : string) : js_or a a = a.
Proof. unfold js_or. now destruct (a =? ""). Qed.

Lemma js_or_empty_r (a : string) : js_or a "" = a.
Proof.
  unfold js_or. destruct (String.eqb_spec a ""); [now subst|reflexivity].
Qed.

Lemma of_row_camel_consistent (data : OrderRow.t) :
  camel_consistent (Order.of_row data).
Proof. unfold camel_consistent. simpl. tauto. Qed.

Lemma with_status_camel_consistent (o : Order.t) (status : string) :
  camel_consistent o -> camel_consistent (Order.with_status o status).
Proof. unfold camel_consistent. simpl. tauto. Qed.

Section MoreRuns.
Context {DbError DeliveryError : Type}.
Variable env : Collaborators DbError DeliveryError.
Variable db : Storage DbError.

Local Abbreviation run_deleteOrder := (@deleteOrder DbError DeliveryError db).
Local Abbreviation run_fetchOrders := (@fetchOrders DbError DeliveryError db).
Local Abbreviation run_fetchProjectDocuments :=
  (@fetchProjectDocuments DbError DeliveryError db).
Local Abbreviation run_addProjectDocument :=
  (@addProjectDocument DbError DeliveryError db).
Local Abbreviation run_updateProjectDocument :=
  (@updateProjectDocument DbError DeliveryError db).

Lemma sendProjectDocumentsForOrder_of_run (render : ProviderState)
    (order : Order.t) (customerEmail customerName : string)
    (st : ProviderState) :
  sendProjectDocumentsForOrder_of env render order customerEmail customerName st
  = (match delivery_outcome env st
             (deliveryData render order customerEmail customerName) with
     | None => Ok tt
     | Some e => Throw (DeliveryRejected e)
     end,
     record_delivery_call st
       (deliveryData render order customerEmail customerName)).
Proof.
  unfold sendProjectDocumentsForOrder_of, try_catch, sendDocumentDelivery, throw.
  now destruct (delivery_outcome env st _).
Qed.

Lemma sendProjectDocuments_of_run (render : ProviderState)
    (orderId customerEmail customerName : string) (st : ProviderState) :
  sendProjectDocuments_of env render orderId customerEmail customerName st
  = match find (fun o => Order.id o =? orderId) (orders render) with
    | None => (Throw (JsError "Order not found"), st)
    | Some order =>
        sendProjectDocumentsForOrder_of env render order
          customerEmail customerName st
    end.
Proof.
  unfold sendProjectDocuments_of, try_catch, throw.
  destruct (find _ (orders render)) as [order|]; [|reflexivity].
  rewrite sendProjectDocumentsForOrder_of_run.
  now destruct (delivery_outcome env st _).
Qed.

(** For an up-to-date render the functions of the render are the functions
    of the provider. *)
Lemma sendProjectDocuments_of_current
    (orderId customerEmail customerName : string) (st : ProviderState) :
  sendProjectDocuments_of env st orderId customerEmail customerName st
  = sendProjectDocuments env orderId customerEmail customerName st.
Proof.
  rewrite sendProjectDocuments_of_run, sendProjectDocuments_run.
  destruct (find _ (orders st)) as [order|]; [|reflexivity].
  now rewrite sendProjectDocumentsForOrder_of_run,
    sendProjectDocumentsForOrder_run.
Qed.

(** X1. After a successful [deleteOrder] the orders left are the old ones
    whose id differs, in their old order; documents and delivery log are as
    before. The [sendProjectDocuments] of a render that has seen the new
    orders then throws "Order not found" for the deleted id without calling
    the transport; the [sendProjectDocuments] of the render before the
    deletion, called after it, still finds the deleted order in its own
    [orders] and calls the transport for it. *)
Theorem X1_deleteOrder_then_sendProjectDocuments
    (st : ProviderState) (id customerEmail customerName : string) :
  delete_order db st id = None ->
  let st' := snd (run_deleteOrder id st) in
  fst (run_deleteOrder id st) = Ok tt
  /\ (forall o, In o (orders st') <-> In o (orders st) /\ Order.id o <> id)
  /\ orders st' = filter (fun o => negb (Order.id o =? id)) (orders st)
  /\ projectDocuments st' = projectDocuments st
  /\ deliveryCalls st' = deliveryCalls st
  /\ sendProjectDocuments_of env st' id customerEmail customerName st'
     = (Throw (JsError "Order not found"), st')
  /\ (forall order,
        find (fun o => Order.id o =? id) (orders st) = Some order ->
        fst (sendProjectDocuments_of env st id customerEmail customerName st')
        <> Throw (JsError "Order not found")
        /\ deliveryCalls
             (snd (sendProjectDocuments_of env st id customerEmail customerName st'))
           = deliveryCalls st
             ++ [deliveryData st order customerEmail customerName]).
Proof.
  intros Hok st'. subst st'.
  unfold deleteOrder, bind, gets. rewrite Hok. simpl.
  assert (Hin : forall o,
             In o (filter (fun order => negb (Order.id order =? id)) (orders st))
             <-> In o (orders st) /\ Order.id o <> id).
  { intros o. rewrite filter_In, negb_true_iff, String.eqb_neq. tauto. }
  split; [reflexivity|]. split; [exact Hin|].
  split; [reflexivity|]. split; [reflexivity|]. split; [reflexivity|].
  split.
  - rewrite sendProjectDocuments_of_run. simpl.
    replace (find (fun o => Order.id o =? id)
               (filter (fun order => negb (Order.id order =? id)) (orders st)))
      with (@None Order.t); [reflexivity|].
    symmetry. apply find_order_none.
    intros (o & Ho & Hid). apply Hin in Ho. tauto.
  - intros order Hfind.
    rewrite sendProjectDocuments_of_run, Hfind,
      sendProjectDocumentsForOrder_of_run. simpl.
    split; [|reflexivity].
    destruct (delivery_outcome env _ _); discriminate.
Qed.

(** X2. A database error never changes the local state. After one,
    [updateOrderStatus], [deleteOrder], [updateProjectDocument] and
    [deleteProjectDocument] return normally, while [addOrder] and
    [addProjectDocument] throw the error they got. *)
Theorem X2_database_errors (st : ProviderState) :
  (forall id status error,
     update_order_status env st id status = Some error ->
     updateOrderStatus env id status st = (Ok tt, st))
  /\ (forall id error,
        delete_order db st id = Some error ->
        run_deleteOrder id st = (Ok tt, st))
  /\ (forall id document error,
        update_document db st id document = Some error ->
        run_updateProjectDocument id document st = (Ok tt, st))
  /\ (forall id error,
        deactivate_document env st id = Some error ->
        deleteProjectDocument env id st = (Ok tt, st))
  /\ (forall order error,
        insert_order env st (snakeCaseData order) = inl error ->
        addOrder env order st = (Throw (SupabaseError error), st))
  /\ (forall document error,
        insert_document db st document = inl error ->
        run_addProjectDocument document st = (Throw (SupabaseError error), st)).
Proof.
  repeat split; intros.
  - unfold updateOrderStatus, bind, gets. now rewrite H.
  - unfold deleteOrder, bind, gets. now rewrite H.
  - unfold updateProjectDocument, bind, gets. now rewrite H.
  - unfold deleteProjectDocument, bind, gets. now rewrite H.
  - unfold addOrder, bind, gets. now rewrite H.
  - unfold addProjectDocument, bind, gets. now rewrite H.
Qed.

(** X3. After a successful [addOrder] whose new id no older order has, the
    [sendProjectDocuments] of the same render, whose [orders] do not yet
    hold the new order, throws "Order not found" for that id and makes no
    call. The [sendProjectDocuments] of a render that has seen the new
    orders finds the new order: it makes one more call, for that order, to
    the given recipient, with the manifest of the order's project. *)
Theorem X3_addOrder_then_sendProjectDocuments
    (st : ProviderState) (order : NewOrder.t) (data : OrderRow.t)
    (customerEmail customerName : string) :
  insert_order env st (snakeCaseData order) = inr data ->
  (forall old, In old (orders st) -> Order.id old <> OrderRow.id data) ->
  let st1 := snd (addOrder env order st) in
  let st2 := snd (sendProjectDocuments_of env st1 (OrderRow.id data)
                    customerEmail customerName st1) in
  sendProjectDocuments_of env st (OrderRow.id data)
    customerEmail customerName st1
  = (Throw (JsError "Order not found"), st1)
  /\ In (Order.of_row data) (orders st1)
  /\ exists payload,
       deliveryCalls st2 = deliveryCalls st1 ++ [payload]
       /\ length (deliveryCalls st2) = 2 + length (deliveryCalls st)
       /\ DocumentDeliveryData.order_id payload = OrderRow.id data
       /\ DocumentDeliveryData.project_title payload = OrderRow.project_title data
       /\ DocumentDeliveryData.customer_email payload = customerEmail
       /\ DocumentDeliveryData.customer_name payload = customerName
       /\ DocumentDeliveryData.documents payload
          = manifest_spec (projectDocuments st) (OrderRow.project_id data).
Proof.
  intros Hinsert Hfresh st1 st2. subst st2 st1.
  rewrite (addOrder_run_inserted env order st data Hinsert).
  rewrite !sendProjectDocuments_of_run. simpl.
  split; [|split].
  - replace (find (fun o => Order.id o =? OrderRow.id data) (orders st))
      with (@None Order.t); [reflexivity|].
    symmetry. apply find_order_none. intros (o & Hin & Hid).
    exact (Hfresh o Hin Hid).
  - apply in_or_app. right. now left.
  - rewrite (find_order_app_new (OrderRow.id data) (orders st)
               (Order.of_row data) Hfresh eq_refl).
    rewrite sendProjectDocumentsForOrder_of_run. simpl.
    eexists. split; [reflexivity|]. simpl.
    rewrite !length_app. simpl.
    repeat split; [lia|].
    apply manifest_spec_formatted.
Qed.

(** X4. A successful [updateOrderStatus] changes, in the derived rows, only
    the classification of the orders with the given id and the delivery date
    that depends on it. Position by position, the row of every order keeps
    its order id, customer name, e-mail, project title, order date, document
    count and stage counts; the row of an order with the given id is
    classified by the new status and its unchanged count, and carries the
    order's update date as delivery date if that classification is
    delivered and none otherwise; the row of any other order is the same
    row. *)
Theorem X4_updateOrderStatus_then_documentStatuses
    (st : ProviderState) (id status : string) :
  update_order_status env st id status = None ->
  Forall2
    (fun order new =>
       let old := documentStatus st order in
       DocumentStatus.orderId new = DocumentStatus.orderId old
       /\ DocumentStatus.customerName new = DocumentStatus.customerName old
       /\ DocumentStatus.customerEmail new = DocumentStatus.customerEmail old
       /\ DocumentStatus.projectTitle new = DocumentStatus.projectTitle old
       /\ DocumentStatus.orderDate new = DocumentStatus.orderDate old
       /\ DocumentStatus.documentsCount new = DocumentStatus.documentsCount old
       /\ DocumentStatus.reviewStages new = DocumentStatus.reviewStages old
       /\ (Order.id order = id ->
           DocumentStatus.status new
           = classification_spec status (DocumentStatus.documentsCount old)
           /\ DocumentStatus.lastDeliveryDate new
              = match classification_spec status
                        (DocumentStatus.documentsCount old) with
                | delivered =>
                    Some (js_or (Order.updated_at order) (Order.updatedAt order))
                | _ => None
                end)
       /\ (Order.id order <> id -> new = old))
    (orders st)
    (documentStatuses (snd (updateOrderStatus env id status st))).
Proof.
  intros Hok. unfold updateOrderStatus, bind, gets. rewrite Hok. simpl.
  unfold documentStatuses. simpl.
  induction (orders st) as [|o l IH]; simpl; constructor; [|exact IH].
  destruct (String.eqb_spec (Order.id o) id) as [Hid|Hid]; simpl.
  - rewrite determine_status_spec.
    repeat split; try reflexivity; contradiction.
  - repeat split; try reflexivity; contradiction.
Qed.

(** X5. Of two successful [updateOrderStatus] calls for the same id the
    second one decides: the orders are as if only the second had been made.
    In particular repeating a call changes nothing more. *)
Theorem X5_updateOrderStatus_last_wins
    (st : ProviderState) (id status1 status2 : string) :
  update_order_status env st id status1 = None ->
  update_order_status env (snd (updateOrderStatus env id status1 st)) id status2
  = None ->
  orders (snd (updateOrderStatus env id status2
                 (snd (updateOrderStatus env id status1 st))))
  = map (fun o => if Order.id o =? id then Order.with_status o status2 else o)
        (orders st).
Proof.
  intros H1 H2.
  unfold updateOrderStatus, bind, gets in *. rewrite H1 in *. simpl in *.
  rewrite H2. simpl. rewrite map_map. apply map_ext. intros o.
  destruct (String.eqb_spec (Order.id o) id) as [Hid|Hid]; simpl.
  - rewrite Hid, String.eqb_refl. reflexivity.
  - destruct (String.eqb_spec (Order.id o) id); [contradiction|reflexivity].
Qed.

(** X6. The camelCase copies of the orders stay equal to the columns they
    were made from: [addOrder], [updateOrderStatus] and [deleteOrder] keep
    this for all orders of the state, whatever the collaborators answer, and
    [fetchOrders] establishes it whenever it loads data. *)
Theorem X6_camel_copies_consistent (st : ProviderState) :
  (Forall camel_consistent (orders st) ->
   (forall order,
      Forall camel_consistent (orders (snd (addOrder env order st))))
   /\ (forall id status,
         Forall camel_consistent
           (orders (snd (updateOrderStatus env id status st))))
   /\ (forall id,
         Forall camel_consistent (orders (snd (run_deleteOrder id st))))
   /\ Forall camel_consistent (orders (snd (run_fetchOrders st))))
  /\ (forall data,
        select_orders db st = SelectData data ->
        Forall camel_consistent (orders (snd (run_fetchOrders st)))
        /\ map Order.id (orders (snd (run_fetchOrders st)))
           = map OrderRow.id (or_empty data)).
Proof.
  split.
  - intros Hinv. repeat split.
    + intros order.
      destruct (insert_order env st (snakeCaseData order)) as [error|data] eqn:Hins.
      * now rewrite (addOrder_run_refused env order st error Hins).
      * rewrite (addOrder_run_inserted env order st data Hins). simpl.
        apply Forall_app. split; [exact Hinv|].
        constructor; [apply of_row_camel_consistent|constructor].
    + intros id status. unfold updateOrderStatus, bind, gets.
      destruct (update_order_status env st id status); simpl; [exact Hinv|].
      apply Forall_map. eapply Forall_impl; [|exact Hinv].
      intros o Ho. destruct (Order.id o =? id); [|exact Ho].
      now apply with_status_camel_consistent.
    + intros id. unfold deleteOrder, bind, gets.
      destruct (delete_order db st id); simpl; [exact Hinv|].
      apply Forall_forall. intros o Ho. apply filter_In in Ho.
      rewrite Forall_forall in Hinv. now apply Hinv.
    + unfold fetchOrders, bind, gets.
      destruct (select_orders db st); simpl; try exact Hinv.
      apply Forall_map, Forall_forall. intros row _.
      apply of_row_camel_consistent.
  - intros data Hdata. unfold fetchOrders, bind, gets. rewrite Hdata. simpl.
    split.
    + apply Forall_map, Forall_forall. intros row _.
      apply of_row_camel_consistent.
    + rewrite map_map. reflexivity.
Qed.

(** X7. Sending never alters what it reports on: after
    [sendProjectDocuments], whether it succeeded, was rejected or found no
    order, the orders, the documents and every derived row are as before,
    and at most one call was added to the log. *)
Theorem X7_sending_changes_no_status
    (st : ProviderState) (orderId customerEmail customerName : string) :
  let st' := snd (sendProjectDocuments env orderId customerEmail customerName st) in
  orders st' = orders st
  /\ projectDocuments st' = projectDocuments st
  /\ documentStatuses st' = documentStatuses st
  /\ (exists calls, deliveryCalls st' = deliveryCalls st ++ calls
                    /\ length calls <= 1).
Proof.
  intros st'. subst st'. rewrite sendProjectDocuments_run.
  destruct (find _ (orders st)) as [order|].
  - rewrite sendProjectDocumentsForOrder_run. simpl.
    repeat split. eexists. split; [reflexivity|]. simpl. lia.
  - simpl. repeat split. exists []. rewrite app_nil_r. split; [reflexivity|].
    simpl. lia.
Qed.

(** X8. A successful [addOrder] adds one derived row, last, for the new
    order, classified by the status and the project the database stored;
    the rows of the older orders are unchanged. *)
Theorem X8_addOrder_then_documentStatuses
    (st : ProviderState) (order : NewOrder.t) (data : OrderRow.t) :
  insert_order env st (snakeCaseData order) = inr data ->
  let st' := snd (addOrder env order st) in
  exists row,
    documentStatuses st' = documentStatuses st ++ [row]
    /\ DocumentStatus.orderId row = OrderRow.id data
    /\ DocumentStatus.status row
       = classification_spec (OrderRow.status data)
           (length (getProjectDocuments st (OrderRow.project_id data)))
    /\ projectDocuments st' = projectDocuments st.
Proof.
  intros Hinsert st'. subst st'.
  rewrite (addOrder_run_inserted env order st data Hinsert).
  unfold documentStatuses. simpl. rewrite map_app. simpl.
  eexists. split; [reflexivity|]. simpl.
  repeat split. apply determine_status_spec.
Qed.

Lemma length_filter_split {A} (p : A -> bool) (l : list A) :
  length (filter (fun x => negb (p x)) l) + length (filter p l) = length l.
Proof.
  induction l as [|x l IH]; simpl; [reflexivity|].
  destruct (p x); simpl; lia.
Qed.

Lemma filter_comm {A} (f g : A -> bool) (l : list A) :
  filter f (filter g l) = filter g (filter f l).
Proof.
  rewrite !filter_filter_and. apply filter_ext. intros x. apply andb_comm.
Qed.

Lemma with_projectDocuments_same (st : ProviderState) :
  with_projectDocuments st (projectDocuments st) = st.
Proof. now destruct st. Qed.

Lemma apply_empty_patch (doc : ProjectDocument.t) :
  DocumentPatch.apply doc DocumentPatch.empty = doc.
Proof. now destruct doc. Qed.

(** X9. A successful [addProjectDocument] appends the row the database
    stored. It joins the documents of its own project, last, if it is
    active, and then raises by one the document count of every order of that
    project; for every other project and order nothing changes. *)
Theorem X9_addProjectDocument_counts
    (st : ProviderState) (document : NewProjectDocument.t)
    (data : ProjectDocument.t) :
  insert_document db st document = inr data ->
  let st' := snd (run_addProjectDocument document st) in
  fst (run_addProjectDocument document st) = Ok tt
  /\ orders st' = orders st
  /\ (forall projectId,
        getProjectDocuments st' projectId
        = getProjectDocuments st projectId
          ++ (if (ProjectDocument.project_id data =? projectId)
                 && ProjectDocument.is_active data
              then [data] else []))
  /\ (forall order,
        DocumentStatus.documentsCount (documentStatus st' order)
        = DocumentStatus.documentsCount (documentStatus st order)
          + (if (ProjectDocument.project_id data =? Order.projectId order)
                && ProjectDocument.is_active data
             then 1 else 0)).
Proof.
  intros Hok st'. subst st'.
  unfold addProjectDocument, bind, gets. rewrite Hok. simpl.
  assert (Hdocs : forall projectId,
            getProjectDocuments
              (with_projectDocuments st (projectDocuments st ++ [data])) projectId
            = getProjectDocuments st projectId
              ++ (if (ProjectDocument.project_id data =? projectId)
                     && ProjectDocument.is_active data
                  then [data] else [])).
  { intros projectId. unfold getProjectDocuments. simpl.
    rewrite filter_app. simpl.
    now destruct ((ProjectDocument.project_id data =? projectId)
                  && ProjectDocument.is_active data). }
  repeat split; [exact Hdocs|].
  intros order. rewrite Hdocs, length_app.
  now destruct ((ProjectDocument.project_id data =? Order.projectId order)
                && ProjectDocument.is_active data).
Qed.

Lemma getProjectDocuments_after_delete (st : ProviderState)
    (id projectId : string) :
  deactivate_document env st id = None ->
  getProjectDocuments (snd (deleteProjectDocument env id st)) projectId
  = filter (fun doc => negb (ProjectDocument.id doc =? id))
      (getProjectDocuments st projectId).
Proof.
  intros Hok. unfold deleteProjectDocument, bind, gets. rewrite Hok. simpl.
  unfold getProjectDocuments. simpl. apply filter_comm.
Qed.

(** X10. After a successful [deleteProjectDocument] the documents of every
    project are the old ones without those of the given id, and the document
    count of an order has dropped by the number of its project's active
    documents with that id. *)
Theorem X10_deleteProjectDocument_counts (st : ProviderState) (id : string) :
  deactivate_document env st id = None ->
  let st' := snd (deleteProjectDocument env id st) in
  orders st' = orders st
  /\ (forall projectId,
        getProjectDocuments st' projectId
        = filter (fun doc => negb (ProjectDocument.id doc =? id))
            (getProjectDocuments st projectId))
  /\ (forall order,
        DocumentStatus.documentsCount (documentStatus st' order)
        + length (filter (fun doc => ProjectDocument.id doc =? id)
                    (getProjectDocuments st (Order.projectId order)))
        = DocumentStatus.documentsCount (documentStatus st order)).
Proof.
  intros Hok st'. subst st'.
  split; [|split].
  - unfold deleteProjectDocument, bind, gets. now rewrite Hok.
  - intros projectId. now apply getProjectDocuments_after_delete.
  - intros order. unfold documentStatus at 1. simpl.
    rewrite (getProjectDocuments_after_delete st id _ Hok).
    apply (length_filter_split (fun doc => ProjectDocument.id doc =? id)).
Qed.

(** X11. In the local state, updating a document to [{ is_active: false }]
    shows the same as deleting it: after either call, when the database
    accepts it, every project has the same documents, the old ones without
    those of the given id. *)
Theorem X11_deactivating_is_deleting (st : ProviderState) (id : string) :
  update_document db st id deactivation = None ->
  deactivate_document env st id = None ->
  forall projectId,
    getProjectDocuments (snd (run_updateProjectDocument id deactivation st))
      projectId
    = getProjectDocuments (snd (deleteProjectDocument env id st)) projectId
    /\ getProjectDocuments (snd (run_updateProjectDocument id deactivation st))
         projectId
       = filter (fun doc => negb (ProjectDocument.id doc =? id))
           (getProjectDocuments st projectId).
Proof.
  intros Hupdate Hdelete projectId.
  assert (Hleft :
    getProjectDocuments (snd (run_updateProjectDocument id deactivation st))
      projectId
    = filter (fun doc => negb (ProjectDocument.id doc =? id))
        (getProjectDocuments st projectId)).
  { unfold updateProjectDocument, bind, gets. rewrite Hupdate. simpl.
    unfold getProjectDocuments. simpl.
    induction (projectDocuments st) as [|doc l IH]; simpl; [reflexivity|].
    destruct (String.eqb_spec (ProjectDocument.id doc) id) as [Hid|Hid]; simpl.
    - rewrite andb_false_r.
      destruct ((ProjectDocument.project_id doc =? projectId)
                && ProjectDocument.is_active doc); simpl.
      + rewrite Hid, String.eqb_refl. simpl. exact IH.
      + exact IH.
    - destruct ((ProjectDocument.project_id doc =? projectId)
                && ProjectDocument.is_active doc); simpl.
      + destruct (String.eqb_spec (ProjectDocument.id doc) id);
          [contradiction|]. simpl. now rewrite IH.
      + exact IH. }
  split; [|exact Hleft].
  rewrite Hleft. symmetry. now apply getProjectDocuments_after_delete.
Qed.

(** X12. A successful [updateProjectDocument] replaces, position by
    position, the documents with the given id by their merge with the patch
    and keeps every other document; a field the patch does not have keeps
    its value, and with the empty patch the whole state is as before. *)
Theorem X12_updateProjectDocument_frame
    (st : ProviderState) (id : string) (document : DocumentPatch.t) :
  update_document db st id document = None ->
  let st' := snd (run_updateProjectDocument id document st) in
  Forall2
    (fun old new =>
       (ProjectDocument.id old <> id -> new = old)
       /\ (ProjectDocument.id old = id ->
           (DocumentPatch.is_active document = None ->
            ProjectDocument.is_active new = ProjectDocument.is_active old)
           /\ (DocumentPatch.project_id document = None ->
               ProjectDocument.project_id new = ProjectDocument.project_id old)
           /\ (DocumentPatch.review_stage document = None ->
               ProjectDocument.review_stage new = ProjectDocument.review_stage old)
           /\ (forall v, DocumentPatch.is_active document = Some v ->
                         ProjectDocument.is_active new = v)
           /\ (forall v, DocumentPatch.project_id document = Some v ->
                         ProjectDocument.project_id new = v)
           /\ (forall v, DocumentPatch.review_stage document = Some v ->
                         ProjectDocument.review_stage new = v)))
    (projectDocuments st) (projectDocuments st')
  /\ orders st' = orders st
  /\ (document = DocumentPatch.empty -> st' = st).
Proof.
  intros Hok st'. subst st'.
  unfold updateProjectDocument, bind, gets. rewrite Hok. simpl.
  split; [|split; [reflexivity|]].
  - apply Forall2_map_self. intros doc.
    destruct (String.eqb_spec (ProjectDocument.id doc) id) as [Hid|Hid].
    + split; [contradiction|]. intros _. simpl.
      repeat split; intros; rewrite H; reflexivity.
    + split; [reflexivity|contradiction].
  - intros Hempty. subst document.
    etransitivity; [|apply with_projectDocuments_same]. f_equal.
    etransitivity; [|apply map_id].
    apply map_ext. intros doc.
    destruct (ProjectDocument.id doc =? id); [apply apply_empty_patch|reflexivity].
Qed.

(** X13. The two loaders treat failure differently. When the query of
    [fetchProjectDocuments] throws, the documents are emptied, so every
    order is then classified no-documents with a count of zero; when the
    client returns an error the state is kept. [fetchOrders] keeps the state
    in both cases. Loaded [null] data counts as no rows. *)
Theorem X13_loaders_on_failure (st : ProviderState) :
  (select_documents db st = SelectThrown ->
   fst (run_fetchProjectDocuments st) = Ok tt
   /\ orders (snd (run_fetchProjectDocuments st)) = orders st
   /\ Forall (fun row => DocumentStatus.status row = no_documents
                         /\ DocumentStatus.documentsCount row = 0)
        (documentStatuses (snd (run_fetchProjectDocuments st))))
  /\ (forall error, select_documents db st = SelectError error ->
                    run_fetchProjectDocuments st = (Ok tt, st))
  /\ (select_orders db st = SelectThrown -> run_fetchOrders st = (Ok tt, st))
  /\ (forall error, select_orders db st = SelectError error ->
                    run_fetchOrders st = (Ok tt, st))
  /\ (select_orders db st = SelectData None ->
      orders (snd (run_fetchOrders st)) = [])
  /\ (select_documents db st = SelectData None ->
      projectDocuments (snd (run_fetchProjectDocuments st)) = []).
Proof.
  unfold fetchProjectDocuments, fetchOrders, bind, gets.
  repeat split; intros; try (rewrite H; reflexivity).
  rewrite H. simpl. unfold documentStatuses. simpl.
  apply Forall_map, Forall_forall. intros order _. now simpl.
Qed.

End MoreRuns.

Lemma X1_witness :
  let st' := snd (@deleteOrder unit unit MoreSamples.db_ok "o2" Samples.st) in
  map Order.id (orders st') = ["o1"; "o3"; "o4"]
  /\ fst (sendProjectDocuments_of Samples.env_ok st' "o2"
            "bob@example.com" "bob" st')
     = Throw (JsError "Order not found")
  /\ map DocumentDeliveryData.order_id
       (deliveryCalls
          (snd (sendProjectDocuments_of Samples.env_ok Samples.st "o2"
                  "bob@example.com" "bob" st')))
     = ["o2"].
Proof.
  intros st'. subst st'.
  destruct (X1_deleteOrder_then_sendProjectDocuments Samples.env_ok
              MoreSamples.db_ok Samples.st "o2" "bob@example.com" "bob" eq_refl)
    as (_ & _ & Horders & _ & _ & Hfresh & Hstale).
  split; [rewrite Horders; reflexivity|].
  split; [rewrite Hfresh; reflexivity|].
  destruct (Hstale Samples.o2 eq_refl) as (_ & Hcalls).
  rewrite Hcalls. reflexivity.
Defined.

Lemma X2_witness :
  updateOrderStatus Samples.env_db_down "o2" "completed" Samples.st
  = (Ok tt, Samples.st)
  /\ @addProjectDocument unit unit MoreSamples.db_down
       (MoreSamples.new_document "p3" "brief.pdf" "review_1" true) Samples.st
     = (Throw (SupabaseError tt), Samples.st).
Proof.
  destruct (X2_database_errors Samples.env_db_down MoreSamples.db_down Samples.st)
    as (Hupdate & _ & _ & _ & _ & Hadd).
  split.
  - apply (Hupdate "o2" "completed" tt). reflexivity.
  - apply (Hadd (MoreSamples.new_document "p3" "brief.pdf" "review_1" true) tt).
    reflexivity.
Defined.

Lemma X3_witness :
  let order := Samples.new_order "zoe" "p2" "pending" in
  let st1 := snd (addOrder Samples.env_ok order Samples.st) in
  let st2 := snd (sendProjectDocuments_of Samples.env_ok st1 "o9"
                    "zoe@example.com" "zoe" st1) in
  sendProjectDocuments_of Samples.env_ok Samples.st "o9"
    "zoe@example.com" "zoe" st1
  = (Throw (JsError "Order not found"), st1)
  /\ exists payload,
       deliveryCalls st2 = deliveryCalls st1 ++ [payload]
       /\ DocumentDeliveryData.order_id payload = "o9"
       /\ map FormattedDocument.name (DocumentDeliveryData.documents payload)
          = ["code.zip"].
Proof.
  intros order st1 st2.
  destruct (X3_addOrder_then_sendProjectDocuments Samples.env_ok Samples.st
              order (Samples.stored (snakeCaseData order))
              "zoe@example.com" "zoe" eq_refl)
    as (Hstale & _ & payload & Hcalls & _ & Hid & _ & _ & _ & Hdocs).
  - intros old Hin. simpl in Hin.
    destruct Hin as [H|[H|[H|[H|[]]]]]; subst old; discriminate.
  - split; [exact Hstale|].
    exists payload. split; [exact Hcalls|]. split; [exact Hid|].
    rewrite Hdocs. reflexivity.
Defined.

Lemma X4_witness :
  map DocumentStatus.status (documentStatuses Samples.st)
  = [delivered; pending; no_documents; partial]
  /\ map (fun row => (DocumentStatus.status row,
                      DocumentStatus.lastDeliveryDate row))
       (documentStatuses
          (snd (updateOrderStatus Samples.env_ok "o4" "completed" Samples.st)))
     = [ (delivered, Some "2025-06-17T13:59:31Z"); (pending, None);
         (no_documents, None); (delivered, Some "2025-06-17T13:59:31Z") ]
  /\ Forall2
       (fun order new =>
          let old := documentStatus Samples.st order in
          DocumentStatus.orderId new = DocumentStatus.orderId old
          /\ DocumentStatus.customerName new = DocumentStatus.customerName old
          /\ DocumentStatus.customerEmail new = DocumentStatus.customerEmail old
          /\ DocumentStatus.projectTitle new = DocumentStatus.projectTitle old
          /\ DocumentStatus.orderDate new = DocumentStatus.orderDate old
          /\ DocumentStatus.documentsCount new = DocumentStatus.documentsCount old
          /\ DocumentStatus.reviewStages new = DocumentStatus.reviewStages old
          /\ (Order.id order = "o4" ->
              DocumentStatus.status new
              = classification_spec "completed" (DocumentStatus.documentsCount old)
              /\ DocumentStatus.lastDeliveryDate new
                 = match classification_spec "completed"
                           (DocumentStatus.documentsCount old) with
                   | delivered =>
                       Some (js_or (Order.updated_at order) (Order.updatedAt order))
                   | _ => None
                   end)
          /\ (Order.id order <> "o4" -> new = old))
       (orders Samples.st)
       (documentStatuses
          (snd (updateOrderStatus Samples.env_ok "o4" "completed" Samples.st))).
Proof.
  split; [reflexivity|]. split; [reflexivity|].
  apply (X4_updateOrderStatus_then_documentStatuses Samples.env_ok
           Samples.st "o4" "completed" eq_refl).
Defined.

Lemma X5_witness :
  map Order.status
    (orders (snd (updateOrderStatus Samples.env_ok "o2" "completed"
                    (snd (updateOrderStatus Samples.env_ok "o2" "shipped"
                            Samples.st)))))
  = ["completed"; "completed"; "completed"; "processing"].
Proof.
  rewrite (X5_updateOrderStatus_last_wins Samples.env_ok Samples.st
             "o2" "shipped" "completed" eq_refl eq_refl).
  reflexivity.
Defined.

Lemma X6_witness :
  Forall camel_consistent
    (orders (snd (updateOrderStatus Samples.env_ok "o2" "completed" Samples.st)))
  /\ map Order.id (orders (snd (@fetchOrders unit unit MoreSamples.db_ok Samples.st)))
     = ["o1"].
Proof.
  destruct (X6_camel_copies_consistent Samples.env_ok MoreSamples.db_ok Samples.st)
    as (Hkeep & Hload).
  split.
  - apply Hkeep.
    repeat constructor.
  - destruct (Hload _ eq_refl) as (_ & Hids). rewrite Hids. reflexivity.
Defined.

Lemma X8_witness :
  let order := Samples.new_order "zoe" "p3" "completed" in
  exists row,
    documentStatuses (snd (addOrder Samples.env_ok order Samples.st))
    = documentStatuses Samples.st ++ [row]
    /\ DocumentStatus.orderId row = "o9"
    /\ DocumentStatus.status row = no_documents.
Proof.
  intros order.
  destruct (X8_addOrder_then_documentStatuses Samples.env_ok Samples.st order
              (Samples.stored (snakeCaseData order)) eq_refl)
    as (row & Hrows & Hid & Hstatus & _).
  exists row. split; [exact Hrows|]. split; [exact Hid|].
  rewrite Hstatus. reflexivity.
Defined.

Lemma X9_witness :
  let st' :=
    snd (@addProjectDocument unit unit MoreSamples.db_ok
           (MoreSamples.new_document "p3" "brief.pdf" "review_1" true)
           Samples.st) in
  DocumentStatus.documentsCount (documentStatus st' Samples.o3) = 1
  /\ DocumentStatus.documentsCount (documentStatus st' Samples.o1) = 3.
Proof.
  intros st'. subst st'.
  destruct (X9_addProjectDocument_counts (DeliveryError := unit)
              MoreSamples.db_ok Samples.st
              (MoreSamples.new_document "p3" "brief.pdf" "review_1" true)
              _ eq_refl)
    as (_ & _ & _ & Hcount).
  split; rewrite Hcount; reflexivity.
Defined.

Lemma X10_witness :
  let st' := snd (deleteProjectDocument Samples.env_ok "d2" Samples.st) in
  map ProjectDocument.id (getProjectDocuments st' "p1") = ["d1"; "d5"]
  /\ DocumentStatus.documentsCount (documentStatus st' Samples.o1) + 1 = 3.
Proof.
  intros st'. subst st'.
  destruct (X10_deleteProjectDocument_counts Samples.env_ok Samples.st "d2"
              eq_refl)
    as (_ & Hdocs & Hcount).
  split.
  - rewrite Hdocs. reflexivity.
  - exact (Hcount Samples.o1).
Defined.

Lemma X11_witness :
  map ProjectDocument.id
    (getProjectDocuments
       (snd (@updateProjectDocument unit unit MoreSamples.db_ok "d2"
               deactivation Samples.st)) "p1")
  = ["d1"; "d5"].
Proof.
  destruct (X11_deactivating_is_deleting Samples.env_ok MoreSamples.db_ok
              Samples.st "d2" eq_refl eq_refl "p1")
    as (_ & Hdocs).
  rewrite Hdocs. reflexivity.
Defined.

Lemma X12_witness :
  snd (@updateProjectDocument unit unit MoreSamples.db_ok "d2"
         DocumentPatch.empty Samples.st)
  = Samples.st.
Proof.
  destruct (X12_updateProjectDocument_frame (DeliveryError := unit)
              MoreSamples.db_ok Samples.st "d2" DocumentPatch.empty eq_refl)
    as (_ & _ & Hempty).
  apply Hempty. reflexivity.
Defined.

Lemma X13_witness :
  map DocumentStatus.status
    (documentStatuses
       (snd (@fetchProjectDocuments unit unit MoreSamples.db_throwing Samples.st)))
  = [no_documents; no_documents; no_documents; no_documents]
  /\ @fetchProjectDocuments unit unit MoreSamples.db_down Samples.st
     = (Ok tt, Samples.st).
Proof.
  split.
  - destruct (proj1 (X13_loaders_on_failure (DeliveryError := unit)
                       MoreSamples.db_throwing Samples.st) eq_refl)
      as (_ & _ & Hrows).
    reflexivity.
  - apply (proj1 (proj2 (X13_loaders_on_failure (DeliveryError := unit)
                           MoreSamples.db_down Samples.st)) tt).
    reflexivity.
Defined.

(** ** The rest of the admin page *)



Lemma count_review_stages_bound (documents : list ProjectDocument.t) :
  count_review_stage "review_1" documents
  + count_review_stage "review_2" documents
  + count_review_stage "review_3" documents
  <= length documents.
Proof.
  induction documents as [|doc rest IH]; simpl; [lia|].
  destruct (String.eqb_spec (ProjectDocument.review_stage doc) "review_1") as [H|_].
  - rewrite H. simpl. lia.
  - destruct (String.eqb_spec (ProjectDocument.review_stage doc) "review_2") as [H|_].
    + rewrite H. simpl. lia.
    + destruct (ProjectDocument.review_stage doc =? "review_3"); lia.
Qed.

(** X14. The five numbers of the statistics cards fit together: the total
    is the number of orders, and the delivered, pending, no-documents and
    partial counts add up to it, every order being counted in exactly one
    of them. *)
Theorem X14_stats_partition (st : ProviderState) :
  Stats.total (stats st) = length (orders st)
  /\ Stats.delivered (stats st) + Stats.pending (stats st)
     + Stats.noDocuments (stats st) + Stats.partial (stats st)
     = Stats.total (stats st).
Proof.
  unfold stats, documentStatuses. simpl. rewrite length_map.
  split; [reflexivity|].
  induction (orders st) as [|o l IH]; simpl; [reflexivity|].
  destruct (determine_status (Order.status o)
              (length (getProjectDocuments st (Order.projectId o))));
    simpl; lia.
Qed.


(** The page's filter on the samples, for the option "Pending Delivery". *)
Example matchesStatus_sample :
  map DocumentStatus.orderId
    (filter (matchesStatus (Some "pending")) (documentStatuses Samples.st))
  = ["o2"].
Proof. reflexivity. Qed.

(** X16. The two conditional buttons of a table row follow the
    classification alone: the upload button is there exactly for
    no-documents rows, the send button exactly for pending and partial rows
    (its test on the document count never fails for them), so no row has
    both and a delivered row has neither. *)
Theorem X16_row_buttons (st : ProviderState) (order : Order.t) :
  let row := documentStatus st order in
  (showsUploadButton row = true <-> DocumentStatus.status row = no_documents)
  /\ (showsSendButton row = true
      <-> DocumentStatus.status row = pending
          \/ DocumentStatus.status row = partial)
  /\ showsUploadButton row && showsSendButton row = false
  /\ (showsUploadButton row || showsSendButton row = false
      <-> DocumentStatus.status row = delivered).
Proof.
  intros row. subst row.
  unfold showsUploadButton, showsSendButton. simpl.
  rewrite determine_status_spec.
  destruct (length (getProjectDocuments st (Order.projectId order))) as [|n];
    simpl.
  - repeat split; intros; try reflexivity; try discriminate.
    destruct H; discriminate.
  - destruct (Order.status order =? "completed"); simpl.
    + repeat split; intros; try reflexivity; try discriminate.
      destruct H; discriminate.
    + destruct (Order.status order =? "pending"); simpl;
        repeat split; intros; try reflexivity; try discriminate; auto.
Qed.

(** X17. The recommendation of the details modal is a function of the
    classification shown in the table: upload for no-documents, send for
    pending, and the "documents delivered" box for delivered and for
    partial orders alike. *)
Theorem X17_recommendation_by_classification
    (st : ProviderState) (order : Order.t) :
  recommendedAction st order
  = match DocumentStatus.status (documentStatus st order) with
    | no_documents => UploadDocuments
    | pending => SendDocuments
    | delivered => DocumentsDelivered
    | partial => DocumentsDelivered
    end.
Proof.
  unfold recommendedAction. simpl. rewrite determine_status_spec.
  destruct (length (getProjectDocuments st (Order.projectId order))) as [|n];
    simpl; [reflexivity|].
  destruct (String.eqb_spec (Order.status order) "completed") as [H|H].
  - rewrite H. reflexivity.
  - destruct (Order.status order =? "pending"); reflexivity.
Qed.

(** An order in some other lifecycle state with documents present: the
    table says partial and offers to send, the modal says delivered. *)
Example partial_row_sample :
  let row := documentStatus Samples.st Samples.o4 in
  DocumentStatus.status row = partial
  /\ showsSendButton row = true
  /\ recommendedAction Samples.st Samples.o4 = DocumentsDelivered.
Proof. repeat split. Qed.

(** X18. The "view details" button of every table row opens the modal: for
    the order id of any derived row, [openDetailsModal] selects an order of
    the state with that id and shows the modal, keeping the search term and
    the filter. For an id no order has, the page is left as it is. *)
Theorem X18_openDetailsModal (st : ProviderState) (page : PageState) :
  (forall row,
     In row (documentStatuses st) ->
     let page' := openDetailsModal st page (DocumentStatus.orderId row) in
     showDetailsModal page' = true
     /\ searchTerm page' = searchTerm page
     /\ statusFilter page' = statusFilter page
     /\ exists order,
          selectedOrder page' = Some order
          /\ In order (orders st)
          /\ Order.id order = DocumentStatus.orderId row)
  /\ (forall orderId,
        (forall order, In order (orders st) -> Order.id order <> orderId) ->
        openDetailsModal st page orderId = page).
Proof.
  split.
  - intros row Hrow page'. subst page'.
    unfold documentStatuses in Hrow. apply in_map_iff in Hrow.
    destruct Hrow as (o & Hrow & Ho). subst row. simpl.
    unfold openDetailsModal.
    destruct (find (fun x => Order.id x =? Order.id o) (orders st))
      as [order|] eqn:Hfind.
    + simpl. repeat split. exists order.
      apply find_some in Hfind. destruct Hfind as (Hin & Hid).
      apply String.eqb_eq in Hid. auto.
    + exfalso. apply find_order_none in Hfind. apply Hfind. now exists o.
  - intros orderId Hnone. unfold openDetailsModal.
    replace (find (fun o => Order.id o =? orderId) (orders st))
      with (@None Order.t); [reflexivity|].
    symmetry. apply find_order_none. intros (o & Hin & Hid).
    exact (Hnone o Hin Hid).
Qed.

Lemma X18_witness :
  option_map Order.id
    (selectedOrder (openDetailsModal Samples.st MoreSamples.page "o3"))
  = Some "o3"
  /\ openDetailsModal Samples.st MoreSamples.page "o7" = MoreSamples.page.
Proof.
  destruct (X18_openDetailsModal Samples.st MoreSamples.page) as (Hopen & Hmiss).
  split.
  - destruct (Hopen (documentStatus Samples.st Samples.o3))
      as (_ & _ & _ & order & Hsel & _ & Hid).
    + simpl. auto.
    + exact (eq_trans (f_equal (option_map Order.id) Hsel) (f_equal Some Hid)).
  - apply Hmiss. intros order Hin. simpl in Hin.
    destruct Hin as [H|[H|[H|[H|[]]]]]; subst order; discriminate.
Defined.

(** X19. The fields of a derived row constrain each other: the status is
    no-documents exactly when the count is zero; a row that is not delivered
    has no delivery date, and the table shows a delivery date exactly for
    the delivered rows of orders that have an update date (a non-empty
    [updated_at] or [updatedAt]); a delivered row has at least one document
    and a "completed" order; and the three stage counts never add up to
    more than the count. *)
Theorem X19_derived_row_invariants (st : ProviderState) (order : Order.t) :
  let row := documentStatus st order in
  let stages := DocumentStatus.reviewStages row in
  (DocumentStatus.status row = no_documents
   <-> DocumentStatus.documentsCount row = 0)
  /\ (DocumentStatus.status row <> delivered ->
      DocumentStatus.lastDeliveryDate row = None)
  /\ (showsDeliveryDate row = true
      <-> DocumentStatus.status row = delivered
          /\ (Order.updated_at order <> "" \/ Order.updatedAt order <> ""))
  /\ (DocumentStatus.status row = delivered
      -> 0 < DocumentStatus.documentsCount row
         /\ Order.status order = "completed")
  /\ ReviewStages.review_1 stages + ReviewStages.review_2 stages
     + ReviewStages.review_3 stages
     <= DocumentStatus.documentsCount row.
Proof.
  intros row stages. subst stages row.
  unfold showsDeliveryDate. simpl.
  rewrite !length_filter_review_stage, determine_status_spec.
  split; [|split; [|split; [|split]]].
  - destruct (length (getProjectDocuments st (Order.projectId order))); simpl.
    + tauto.
    + destruct (Order.status order =? "completed");
        [|destruct (Order.status order =? "pending")];
        split; intros; discriminate.
  - destruct (classification_spec _ _); intros H; congruence.
  - assert (Hdate : negb (js_or (Order.updated_at order) (Order.updatedAt order)
                          =? "") = true
                    <-> Order.updated_at order <> ""
                        \/ Order.updatedAt order <> "").
    { unfold js_or.
      destruct (String.eqb_spec (Order.updated_at order) "") as [Ha|Ha].
      - destruct (String.eqb_spec (Order.updatedAt order) "") as [Hb|Hb];
          simpl; split; intros H; auto; try discriminate.
        destruct H; contradiction.
      - destruct (String.eqb_spec (Order.updated_at order) "");
          [contradiction|]. simpl. split; auto. }
    destruct (classification_spec _ _).
    + rewrite Hdate. tauto.
    + split; [discriminate|intros (H & _); discriminate].
    + split; [discriminate|intros (H & _); discriminate].
    + split; [discriminate|intros (H & _); discriminate].
  - destruct (length (getProjectDocuments st (Order.projectId order))); simpl.
    + discriminate.
    + destruct (String.eqb_spec (Order.status order) "completed").
      * intros _. split; [lia|assumption].
      * destruct (Order.status order =? "pending"); discriminate.
  - apply count_review_stages_bound.
Qed.

(** A completed order with documents but without any update date: the row is
    delivered and shows no delivery date. *)
Example delivered_row_without_date :
  let order := Order.with_status
                 {| Order.id := "o6"; Order.customer_name := "fay";
                    Order.customer_email := "fay@example.com";
                    Order.project_id := "p1"; Order.project_title := "Project p1";
                    Order.price := 4999; Order.status := "";
                    Order.created_at := "2025-06-17T13:59:31Z";
                    Order.updated_at := "";
                    Order.projectId := "p1"; Order.customerName := "fay";
                    Order.customerEmail := "fay@example.com";
                    Order.projectTitle := "Project p1";
                    Order.createdAt := "2025-06-17T13:59:31Z";
                    Order.updatedAt := "" |} "completed" in
  let row := documentStatus Samples.st order in
  DocumentStatus.status row = delivered /\ showsDeliveryDate row = false.
Proof. split; reflexivity. Qed.

(** X20. [getDocumentsByReviewStage] gives the documents of
    [getProjectDocuments] that are at the stage, in the same order; the
    details modal lists the same documents under a stage, and for review_1,
    review_2 and review_3 their number is the stage count of the table
    row. *)
Theorem X20_stage_views_agree (st : ProviderState) (order : Order.t) :
  (forall projectId stage,
     getDocumentsByReviewStage st projectId stage
     = filter (fun doc => ProjectDocument.review_stage doc =? stage)
         (getProjectDocuments st projectId))
  /\ (forall stage,
        modalStageDocuments st order stage
        = getDocumentsByReviewStage st (Order.projectId order) stage)
  /\ (let stages := DocumentStatus.reviewStages (documentStatus st order) in
      length (modalStageDocuments st order "review_1")
      = ReviewStages.review_1 stages
      /\ length (modalStageDocuments st order "review_2")
         = ReviewStages.review_2 stages
      /\ length (modalStageDocuments st order "review_3")
         = ReviewStages.review_3 stages).
Proof.
  assert (Hstage : forall projectId stage,
            getDocumentsByReviewStage st projectId stage
            = filter (fun doc => ProjectDocument.review_stage doc =? stage)
                (getProjectDocuments st projectId)).
  { intros projectId stage.
    unfold getDocumentsByReviewStage, getProjectDocuments.
    rewrite filter_filter_and. apply filter_ext. intros doc.
    destruct (ProjectDocument.project_id doc =? projectId),
             (ProjectDocument.review_stage doc =? stage),
             (ProjectDocument.is_active doc); reflexivity. }
  assert (Hmodal : forall stage,
            modalStageDocuments st order stage
            = filter (fun doc => ProjectDocument.review_stage doc =? stage)
                (getProjectDocuments st (Order.projectId order))).
  { intros stage. unfold modalStageDocuments, getProjectDocuments.
    rewrite !filter_filter_and. apply filter_ext. intros doc.
    destruct (ProjectDocument.project_id doc =? Order.projectId order),
             (ProjectDocument.review_stage doc =? stage),
             (ProjectDocument.is_active doc); reflexivity. }
  split; [exact Hstage|]. split.
  - intros stage. now rewrite Hmodal, Hstage.
  - simpl. now rewrite !Hmodal.
Qed.

(** X21. For an order whose camelCase copies agree with its columns, as the
    provider makes them, the derived row shows the columns themselves:
    customer name, e-mail, project title and creation date, and for a
    delivered row the update date as delivery date. *)
Theorem X21_row_shows_columns (st : ProviderState) (order : Order.t) :
  camel_consistent order ->
  let row := documentStatus st order in
  DocumentStatus.orderId row = Order.id order
  /\ DocumentStatus.customerName row = Order.customer_name order
  /\ DocumentStatus.customerEmail row = Order.customer_email order
  /\ DocumentStatus.projectTitle row = Order.project_title order
  /\ DocumentStatus.orderDate row = Order.created_at order
  /\ (DocumentStatus.status row = delivered ->
      DocumentStatus.lastDeliveryDate row = Some (Order.updated_at order)).
Proof.
  intros (Hproject & Hname & Hemail & Htitle & Hcreated & Hupdated) row.
  subst row. simpl.
  rewrite Hname, Hemail, Htitle, Hcreated, Hupdated.
  rewrite !js_or_same, js_or_empty_r.
  repeat split.
  destruct (determine_status _ _); intros H; try discriminate. reflexivity.
Qed.

Lemma X21_witness :
  let row := documentStatus Samples.st Samples.o1 in
  DocumentStatus.customerName row = "ann"
  /\ DocumentStatus.lastDeliveryDate row = Some "2025-06-17T13:59:31Z".
Proof.
  intros row.
  assert (Hconsistent : camel_consistent Samples.o1).
  { unfold camel_consistent. simpl. repeat split. }
  destruct (X21_row_shows_columns Samples.st Samples.o1 Hconsistent)
    as (_ & Hname & _ & _ & _ & Hdate).
  split.
  - exact Hname.
  - apply Hdate. reflexivity.
Defined.

(** ** Key conversion *)

Lemma ascii_case_facts (c : ascii) :
  (is_upper c = true ->
   is_lower (letter_toLowerCase c) = true
   /\ is_upper (letter_toLowerCase c) = false
   /\ letter_toUpperCase (letter_toLowerCase c) = c
   /\ Ascii.eqb c underscore = false
   /\ is_lower c = false)
  /\ (is_lower c = true ->
      is_upper (letter_toUpperCase c) = true
      /\ letter_toLowerCase (letter_toUpperCase c) = c
      /\ Ascii.eqb (letter_toUpperCase c) underscore = false
      /\ Ascii.eqb c underscore = false).
Proof.
  destruct c as [[] [] [] [] [] [] [] []]; vm_compute;
    split; intros H; try discriminate H; repeat split.
Qed.

Lemma underscore_facts :
  is_upper underscore = false /\ is_lower underscore = false.
Proof. split; reflexivity. Qed.

Lemma eqb_underscore (c : ascii) :
  Ascii.eqb c underscore = true -> c = underscore.
Proof. apply Ascii.eqb_eq. Qed.

Lemma toSnakeCase_no_upper (s : string) : no_upper (toSnakeCase s) = true.
Proof.
  induction s as [|c s IH]; simpl; [reflexivity|].
  destruct (is_upper c) eqn:Hc; simpl.
  - destruct (proj1 (ascii_case_facts c) Hc) as (_ & Hlow & _).
    now rewrite Hlow, IH.
  - now rewrite Hc, IH.
Qed.

Lemma toSnakeCase_fixed (s : string) :
  no_upper s = true -> toSnakeCase s = s.
Proof.
  induction s as [|c s IH]; simpl; [reflexivity|].
  intros H. apply andb_true_iff in H. destruct H as (Hc & Hs).
  apply negb_true_iff in Hc. rewrite Hc. now rewrite IH.
Qed.

(** X22. [toSnakeCase] leaves no capital letter, so applying it twice is
    the same as applying it once, and it changes nothing in a string without
    capital letters; it lengthens the string by one character for each
    capital letter. *)
Theorem X22_toSnakeCase_normal_form (str : string) :
  no_upper (toSnakeCase str) = true
  /\ toSnakeCase (toSnakeCase str) = toSnakeCase str
  /\ (toSnakeCase str = str <-> no_upper str = true)
  /\ String.length (toSnakeCase str) = String.length str + count_upper str.
Proof.
  split; [apply toSnakeCase_no_upper|].
  split; [apply toSnakeCase_fixed, toSnakeCase_no_upper|].
  split.
  - split; [|apply toSnakeCase_fixed].
    intros H. rewrite <- H. apply toSnakeCase_no_upper.
  - induction str as [|c s IH]; simpl; [reflexivity|].
    destruct (is_upper c); simpl; rewrite IH; lia.
Qed.

Lemma toCamelCase_toSnakeCase_cons (c : ascii) (rest : string) :
  toCamelCase (toSnakeCase (String c rest))
  = if Ascii.eqb c underscore then
      match rest with
      | EmptyString => String c EmptyString
      | String d rest' =>
          if is_lower d
          then String (letter_toUpperCase d) (toCamelCase (toSnakeCase rest'))
          else String c (toCamelCase (toSnakeCase rest))
      end
    else String c (toCamelCase (toSnakeCase rest)).
Proof.
  simpl toSnakeCase at 1.
  destruct (is_upper c) eqn:Hupper.
  - destruct (proj1 (ascii_case_facts c) Hupper)
      as (Hlow & _ & Hback & Hnot & _).
    rewrite Hnot. simpl. now rewrite Hlow, Hback.
  - destruct (Ascii.eqb c underscore) eqn:Hc.
    + apply eqb_underscore in Hc. subst c.
      destruct rest as [|d rest']; [reflexivity|].
      simpl toSnakeCase. destruct (is_upper d) eqn:Hd.
      * destruct (proj1 (ascii_case_facts d) Hd) as (_ & _ & _ & _ & Hnl).
        rewrite Hnl. reflexivity.
      * simpl. destruct (is_lower d); reflexivity.
    + simpl. now rewrite Hc.
Qed.

Lemma toCamelCase_toSnakeCase_ok (str : string) :
  no_underscore_lower str = true -> toCamelCase (toSnakeCase str) = str.
Proof.
  induction str as [|c s IH]; [reflexivity|].
  rewrite toCamelCase_toSnakeCase_cons.
  change (no_underscore_lower (String c s))
    with (match s with
          | EmptyString => true
          | String d _ => negb (Ascii.eqb c underscore && is_lower d)
          end && no_underscore_lower s).
  intros H. apply andb_true_iff in H. destruct H as (Hhead & Htail).
  destruct (Ascii.eqb c underscore).
  - destruct s as [|d s']; [reflexivity|].
    simpl in Hhead. apply negb_true_iff in Hhead. rewrite Hhead.
    now rewrite (IH Htail).
  - now rewrite (IH Htail).
Qed.

(** X23. Converting a key to snake_case and back gives the key again
    exactly when the key has no underscore directly followed by a lower-case
    letter. *)
Theorem X23_camel_of_snake (str : string) :
  toCamelCase (toSnakeCase str) = str <-> no_underscore_lower str = true.
Proof.
  induction str as [|c s IH]; [simpl; tauto|].
  rewrite toCamelCase_toSnakeCase_cons.
  change (no_underscore_lower (String c s))
    with (match s with
          | EmptyString => true
          | String d _ => negb (Ascii.eqb c underscore && is_lower d)
          end && no_underscore_lower s).
  destruct (Ascii.eqb c underscore) eqn:Hc.
  - destruct s as [|d s']; [simpl; tauto|].
    destruct (is_lower d) eqn:Hd; simpl andb; simpl negb.
    + split; [|discriminate]. intros H. exfalso.
      injection H as H1 _.
      destruct (proj2 (ascii_case_facts d) Hd) as (_ & _ & Hne & _).
      apply eqb_underscore in Hc. subst c.
      rewrite H1 in Hne. discriminate Hne.
    + rewrite <- IH. split; [intros H; now injection H | intros H; now rewrite H].
  - assert (Hs : match s with
                 | EmptyString => true
                 | String d _ => negb (false && is_lower d)
                 end = true) by now destruct s.
    rewrite Hs. simpl andb. rewrite <- IH.
    split; [intros H; now injection H | intros H; now rewrite H].
Qed.


Lemma X23_witness :
  toSnakeCase "customerEmail" = "customer_email"
  /\ toCamelCase (toSnakeCase "customerEmail") = "customerEmail".
Proof.
  split; [reflexivity|].
  apply (proj2 (X23_camel_of_snake "customerEmail")). reflexivity.
Defined.

(** A key that already has an underscore before a lower-case letter does
    not come back. *)
Example camel_of_snake_sample_lost :
  toCamelCase (toSnakeCase "image_upload") = "imageUpload".
Proof. reflexivity. Qed.

Lemma toSnakeCase_toCamelCase_bounded (n : nat) :
  forall s, String.length s <= n -> no_upper s = true ->
            toSnakeCase (toCamelCase s) = s.
Proof.
  induction n as [|n IH]; intros s Hlen Hs.
  - destruct s; [reflexivity|simpl in Hlen; lia].
  - destruct s as [|c s]; [reflexivity|].
    simpl in Hlen. simpl in Hs. apply andb_true_iff in Hs.
    destruct Hs as (Hc & Hs). apply negb_true_iff in Hc.
    simpl toCamelCase.
    destruct (Ascii.eqb c underscore) eqn:Hcu.
    + destruct s as [|d s'].
      * simpl. now rewrite Hc.
      * simpl in Hs. apply andb_true_iff in Hs. destruct Hs as (Hd & Hs').
        destruct (is_lower d) eqn:Hlow.
        -- destruct (proj2 (ascii_case_facts d) Hlow) as (Hup & Hback & _).
           simpl. rewrite Hup, Hback.
           apply eqb_underscore in Hcu. subst c.
           rewrite IH; [reflexivity| |exact Hs']. simpl in Hlen. lia.
        -- cbn [toSnakeCase]. rewrite Hc.
           rewrite IH; [reflexivity|lia|]. simpl. now rewrite Hd, Hs'.
    + simpl. rewrite Hc. rewrite IH; [reflexivity|lia|exact Hs].
Qed.

(** X24. Converting a key to camelCase and back gives the key again exactly
    when the key has no capital letter. *)
Theorem X24_snake_of_camel (str : string) :
  toSnakeCase (toCamelCase str) = str <-> no_upper str = true.
Proof.
  split.
  - intros H. rewrite <- H. apply toSnakeCase_no_upper.
  - apply (toSnakeCase_toCamelCase_bounded (String.length str)). lia.
Qed.

Lemma X24_witness :
  toCamelCase "project_title" = "projectTitle"
  /\ toSnakeCase (toCamelCase "project_title") = "project_title".
Proof.
  split; [reflexivity|].
  apply (proj2 (X24_snake_of_camel "project_title")). reflexivity.
Defined.

(** ** Converting the keys of a value *)

Lemma value_ind' (P : value -> Prop) :
  (forall p, P (Prim p)) ->
  (forall items, Forall P items -> P (Arr items)) ->
  (forall fields, Forall (fun kv => P (snd kv)) fields -> P (Obj fields)) ->
  forall v, P v.
Proof.
  intros HPrim HArr HObj. fix IH 1. intros [p|items|fields].
  - apply HPrim.
  - apply HArr. induction items as [|x items IHitems]; constructor.
    + apply IH.
    + exact IHitems.
  - apply HObj. induction fields as [|[k x] fields IHfields]; constructor.
    + apply IH.
    + exact IHfields.
Qed.

Lemma keys_ok_Arr (ok : string -> bool) (items : list value) :
  keys_ok ok (Arr items) <-> Forall (keys_ok ok) items.
Proof.
  simpl. induction items as [|x items IH].
  - split; [constructor|trivial].
  - rewrite Forall_cons_iff, <- IH. reflexivity.
Qed.

Lemma keys_ok_Obj (ok : string -> bool) (fields : list (string * value)) :
  keys_ok ok (Obj fields)
  <-> NoDup (map fst fields)
      /\ Forall (fun kv => ok (fst kv) = true /\ keys_ok ok (snd kv)) fields.
Proof.
  simpl. apply and_iff_compat_l.
  induction fields as [|kv fields IH].
  - split; [constructor|trivial].
  - rewrite Forall_cons_iff, <- IH. reflexivity.
Qed.

Section Assign.
Context {V : Type}.

Lemma lookup_assign (acc : list (string * V)) (key key' : string) (v : V) :
  lookup (assign acc key v) key'
  = if key =? key' then Some v else lookup acc key'.
Proof.
  induction acc as [|[k old] acc IH]; simpl.
  - reflexivity.
  - destruct (String.eqb_spec k key) as [Hk|Hk]; simpl.
    + subst k. now destruct (key =? key').
    + rewrite IH. destruct (String.eqb_spec key key') as [Hkk|Hkk].
      * subst key'. destruct (String.eqb_spec k key); [contradiction|reflexivity].
      * reflexivity.
Qed.

Lemma assign_fresh (acc : list (string * V)) (key : string) (v : V) :
  ~ In key (map fst acc) -> assign acc key v = acc ++ [(key, v)].
Proof.
  induction acc as [|[k old] acc IH]; simpl; intros Hfresh; [reflexivity|].
  destruct (String.eqb_spec k key) as [Hk|Hk].
  - exfalso. apply Hfresh. now left.
  - rewrite IH; [reflexivity|]. intros Hin. apply Hfresh. now right.
Qed.

Lemma assign_keys (acc : list (string * V)) (key : string) (v : V) :
  map fst (assign acc key v)
  = if existsb (fun k => k =? key) (map fst acc)
    then map fst acc
    else map fst acc ++ [key].
Proof.
  induction acc as [|[k old] acc IH]; simpl; [reflexivity|].
  destruct (String.eqb_spec k key) as [Hk|Hk]; simpl; [reflexivity|].
  rewrite IH. now destruct (existsb _ (map fst acc)).
Qed.

Lemma assign_NoDup (acc : list (string * V)) (key : string) (v : V) :
  NoDup (map fst acc) -> NoDup (map fst (assign acc key v)).
Proof.
  intros Hacc. rewrite assign_keys.
  destruct (existsb (fun k => k =? key) (map fst acc)) eqn:Hex; [exact Hacc|].
  apply NoDup_app; [exact Hacc|repeat constructor; auto|].
  intros k Hk [Heq|[]]. subst k.
  assert (Htrue : existsb (fun k => k =? key) (map fst acc) = true).
  { apply existsb_exists. exists key. split; [exact Hk|apply String.eqb_refl]. }
  congruence.
Qed.

Lemma assign_Forall (P : string * V -> Prop) (acc : list (string * V))
    (key : string) (v : V) :
  Forall P acc -> P (key, v) -> Forall P (assign acc key v).
Proof.
  intros Hacc Hnew. induction acc as [|[k old] acc IH]; simpl.
  - now constructor.
  - inversion Hacc as [|? ? Hhead Htail]. subst.
    destruct (String.eqb_spec k key) as [Hk|Hk].
    + subst k. now constructor.
    + constructor; [exact Hhead|]. now apply IH.
Qed.

End Assign.

Section Folding.
Context {V W : Type}.
Variable f : string -> string.
Variable g : V -> W.

Local Abbreviation step :=
  (fun (acc : list (string * W)) (kv : string * V) =>
     assign acc (f (fst kv)) (g (snd kv))).

Local Abbreviation set_step :=
  (fun (acc : list (string * W)) (kv : string * V) =>
     set_property acc (f (fst kv)) (g (snd kv))).

Lemma fold_assign_lookup (fields : list (string * V))
    (acc : list (string * W)) (key : string) :
  lookup (fold_left step fields acc) key
  = match last_field (fun k => f k =? key) fields with
    | Some v => Some (g v)
    | None => lookup acc key
    end.
Proof.
  revert acc. induction fields as [|kv fields IH] using rev_ind; intros acc.
  - reflexivity.
  - rewrite fold_left_app. simpl. rewrite lookup_assign.
    unfold last_field. rewrite rev_app_distr. simpl.
    destruct (f (fst kv) =? key); [reflexivity|].
    apply IH.
Qed.

Lemma fold_set_distinct (fields : list (string * V))
    (acc : list (string * W)) :
  Forall (fun kv => f (fst kv) <> "__proto__") fields ->
  NoDup (map fst acc ++ map (fun kv => f (fst kv)) fields) ->
  fold_left set_step fields acc
  = acc ++ map (fun kv => (f (fst kv), g (snd kv))) fields.
Proof.
  intros Hsafe. revert acc.
  induction Hsafe as [|kv fields Hkv _ IH]; intros acc Hdistinct; simpl.
  - now rewrite app_nil_r.
  - simpl in Hdistinct.
    assert (Hfresh : ~ In (f (fst kv)) (map fst acc)).
    { apply NoDup_remove_2 in Hdistinct. intros Hin. apply Hdistinct.
      apply in_or_app. now left. }
    unfold set_property at 2.
    destruct (String.eqb_spec (f (fst kv)) "__proto__"); [contradiction|].
    rewrite (assign_fresh acc _ _ Hfresh).
    rewrite IH.
    + now rewrite <- app_assoc.
    + rewrite map_app, <- app_assoc. exact Hdistinct.
Qed.



Lemma fold_set_invariant (P : string * W -> Prop)
    (fields : list (string * V)) (acc : list (string * W)) :
  Forall (fun kv => P (f (fst kv), g (snd kv))) fields ->
  NoDup (map fst acc) -> Forall P acc ->
  NoDup (map fst (fold_left set_step fields acc))
  /\ Forall P (fold_left set_step fields acc).
Proof.
  intros Hfields. revert acc.
  induction Hfields as [|kv fields Hkv _ IH]; intros acc Hdistinct Hacc; simpl.
  - now split.
  - unfold set_property at 2 4.
    destruct (f (fst kv) =? "__proto__").
    + now apply IH.
    + apply IH; [now apply assign_NoDup | now apply assign_Forall].
Qed.

End Folding.

Lemma convertKeysToSnakeCase_with (v : value) :
  convertKeysToSnakeCase v = convertKeysWith toSnakeCase v.
Proof.
  induction v as [p|items IH|fields IH] using value_ind'; simpl.
  - reflexivity.
  - f_equal. apply map_ext_in. intros x Hx.
    rewrite Forall_forall in IH. now apply IH.
  - f_equal. generalize (@nil (string * value)).
    induction IH as [|kv fields Hkv _ IHfields]; intros acc; simpl.
    + reflexivity.
    + rewrite Hkv. apply IHfields.
Qed.

Lemma convertKeysToCamelCase_with (v : value) :
  convertKeysToCamelCase v = convertKeysWith toCamelCase v.
Proof.
  induction v as [p|items IH|fields IH] using value_ind'; simpl.
  - reflexivity.
  - f_equal. apply map_ext_in. intros x Hx.
    rewrite Forall_forall in IH. now apply IH.
  - f_equal. generalize (@nil (string * value)).
    induction IH as [|kv fields Hkv _ IHfields]; intros acc; simpl.
    + reflexivity.
    + rewrite Hkv. apply IHfields.
Qed.

Lemma convertKeysWith_Obj (f : string -> string)
    (fields : list (string * value)) :
  convertKeysWith f (Obj fields)
  = Obj (fold_left
           (fun acc kv =>
              set_property acc (f (fst kv)) (convertKeysWith f (snd kv)))
           fields []).
Proof. reflexivity. Qed.

Lemma NoDup_map_on {A B} (f : A -> B) (l : list A) :
  (forall x y, In x l -> In y l -> f x = f y -> x = y) ->
  NoDup l -> NoDup (map f l).
Proof.
  intros Hinj Hl. induction Hl as [|x l Hx Hl IH]; simpl; constructor.
  - intros Hin. apply in_map_iff in Hin. destruct Hin as (y & Hy & Hin).
    assert (y = x) by (apply Hinj; [now right|now left|exact Hy]).
    subst y. contradiction.
  - apply IH. intros a b Ha Hb. apply Hinj; now right.
Qed.

Section RoundTrip.
Variables f g : string -> string.
Variable ok : string -> bool.
Hypothesis back : forall k, ok k = true -> g (f k) = k.
Hypothesis safe : forall k, ok k = true -> f k <> "__proto__".
Hypothesis safe_back : forall k, ok k = true -> k <> "__proto__".

Lemma convertKeysWith_distinct (fields : list (string * value)) :
  NoDup (map fst fields) ->
  Forall (fun kv => ok (fst kv) = true) fields ->
  convertKeysWith f (Obj fields)
  = Obj (map (fun kv => (f (fst kv), convertKeysWith f (snd kv))) fields).
Proof.
  intros Hdistinct Hok. rewrite convertKeysWith_Obj. f_equal.
  rewrite (fold_set_distinct f (convertKeysWith f)); [reflexivity| |].
  - eapply Forall_impl; [|exact Hok]. intros kv Hkv. now apply safe.
  - simpl. rewrite <- (map_map fst f).
    apply NoDup_map_on; [|exact Hdistinct].
    intros x y Hx Hy Hfxy.
    rewrite Forall_forall in Hok.
    apply in_map_iff in Hx. destruct Hx as (kx & Hkx & Hx).
    apply in_map_iff in Hy. destruct Hy as (ky & Hky & Hy).
    rewrite <- (back x), <- (back y), Hfxy; [reflexivity| |].
    + subst y. now apply Hok.
    + subst x. now apply Hok.
Qed.

Lemma convertKeysWith_round_trip (v : value) :
  keys_ok ok v -> convertKeysWith g (convertKeysWith f v) = v.
Proof.
  induction v as [p|items IH|fields IH] using value_ind'.
  - reflexivity.
  - intros Hok. apply keys_ok_Arr in Hok. simpl. f_equal.
    rewrite map_map. rewrite <- (map_id items) at 2.
    apply map_ext_in. intros x Hx.
    rewrite Forall_forall in IH, Hok. apply IH; [exact Hx|now apply Hok].
  - intros Hok. apply keys_ok_Obj in Hok. destruct Hok as (Hdistinct & Hfields).
    assert (Hkeys : Forall (fun kv => ok (fst kv) = true) fields).
    { eapply Forall_impl; [|exact Hfields]. now intros kv (Hk & _). }
    rewrite (convertKeysWith_distinct fields Hdistinct Hkeys).
    rewrite convertKeysWith_Obj. f_equal.
    rewrite (fold_set_distinct g (convertKeysWith g)).
    + simpl. rewrite map_map. simpl.
      rewrite <- (map_id fields) at 2.
      apply map_ext_in. intros [k x] Hkx. simpl.
      rewrite Forall_forall in IH, Hfields.
      destruct (Hfields _ Hkx) as (Hk & Hx). simpl in Hk, Hx.
      rewrite (back k Hk). f_equal. apply (IH _ Hkx). exact Hx.
    + apply Forall_map. eapply Forall_impl; [|exact Hkeys].
      intros [k x] Hk. simpl in *. rewrite (back k Hk). now apply safe_back.
    + simpl. rewrite map_map. simpl.
      erewrite map_ext_in; [rewrite <- (map_map fst (fun k => k)), map_id;
                            exact Hdistinct|].
      intros [k x] Hkx. simpl. rewrite Forall_forall in Hkeys.
      exact (back k (Hkeys _ Hkx)).
Qed.

End RoundTrip.

Lemma convertKeysWith_keys (f : string -> string) (ok : string -> bool)
    (v : value) :
  (forall k, ok (f k) = true) -> keys_ok ok (convertKeysWith f v).
Proof.
  intros Hok. induction v as [p|items IH|fields IH] using value_ind'.
  - exact I.
  - simpl convertKeysWith. apply keys_ok_Arr. apply Forall_map. exact IH.
  - rewrite convertKeysWith_Obj. apply keys_ok_Obj.
    apply (fold_set_invariant f (convertKeysWith f)
             (fun kw => ok (fst kw) = true /\ keys_ok ok (snd kw))).
    + eapply Forall_impl; [|exact IH]. intros kv Hkv. simpl. auto.
    + constructor.
    + constructor.
Qed.

Lemma snake_safe_key_facts (k : string) :
  snake_safe_key k = true ->
  toCamelCase (toSnakeCase k) = k
  /\ toSnakeCase k <> "__proto__"
  /\ k <> "__proto__".
Proof.
  unfold snake_safe_key. intros H. apply andb_true_iff in H.
  destruct H as (Hback & Hsafe).
  apply negb_true_iff, String.eqb_neq in Hsafe.
  split; [now apply toCamelCase_toSnakeCase_ok|]. split; [exact Hsafe|].
  intros Hk. subst k. discriminate Hback.
Qed.

Lemma camel_safe_key_facts (k : string) :
  camel_safe_key k = true ->
  toSnakeCase (toCamelCase k) = k
  /\ toCamelCase k <> "__proto__"
  /\ k <> "__proto__".
Proof.
  unfold camel_safe_key. intros H. apply andb_true_iff in H.
  destruct H as (Hupper & Hsafe).
  apply negb_true_iff, String.eqb_neq in Hsafe.
  assert (Hback : toSnakeCase (toCamelCase k) = k)
    by (apply (toSnakeCase_toCamelCase_bounded (String.length k)); [lia|exact Hupper]).
  split; [exact Hback|]. split; [|exact Hsafe].
  intros Hproto. rewrite Hproto in Hback. apply Hsafe. now rewrite <- Hback.
Qed.

(** X25. Converting the keys of a value to snake_case and back gives the
    value again when no object in it has a key twice, no key has an
    underscore directly followed by a lower-case letter, and no key becomes
    "__proto__" in snake_case (as "_Proto__" does); converting to camelCase
    and back gives it again when no object has a key twice, no key has a
    capital letter and no key is "__proto__". *)
Theorem X25_convertKeys_round_trip (v : value) :
  (keys_ok snake_safe_key v ->
   convertKeysToCamelCase (convertKeysToSnakeCase v) = v)
  /\ (keys_ok camel_safe_key v ->
      convertKeysToSnakeCase (convertKeysToCamelCase v) = v).
Proof.
  split; intros Hok.
  - rewrite convertKeysToSnakeCase_with, convertKeysToCamelCase_with.
    apply (convertKeysWith_round_trip toSnakeCase toCamelCase snake_safe_key);
      try exact Hok; intros k Hk;
      destruct (snake_safe_key_facts k Hk) as (H1 & H2 & H3); assumption.
  - rewrite convertKeysToCamelCase_with, convertKeysToSnakeCase_with.
    apply (convertKeysWith_round_trip toCamelCase toSnakeCase camel_safe_key);
      try exact Hok; intros k Hk;
      destruct (camel_safe_key_facts k Hk) as (H1 & H2 & H3); assumption.
Qed.

(** A field whose key becomes "__proto__" is lost on the way, so such a
    value does not come back. *)
Example convertKeysToSnakeCase_sample_proto :
  convertKeysToSnakeCase
    (Obj [ ("_Proto__", Prim (Str "x")); ("title", Prim (Str "t")) ])
  = Obj [ ("title", Prim (Str "t")) ]
  /\ convertKeysToSnakeCase
       (convertKeysToCamelCase (Obj [ ("__proto__", Prim (Str "x")) ]))
     = Obj [].
Proof. split; reflexivity. Qed.

Lemma X25_witness :
  convertKeysToSnakeCase MoreSamples.project_form = MoreSamples.project_row
  /\ convertKeysToCamelCase (convertKeysToSnakeCase MoreSamples.project_form)
     = MoreSamples.project_form.
Proof.
  split; [reflexivity|].
  apply (proj1 (X25_convertKeys_round_trip MoreSamples.project_form)).
  simpl. repeat split; try (repeat constructor; simpl; intuition discriminate).
Defined.

(** X26. Whatever value it is given, [convertKeysToSnakeCase] returns a
    value in which, at every depth, no key has a capital letter and no
    object has a key twice; arrays keep their length and anything that is
    neither an array nor an object is returned as it is. *)
Theorem X26_convertKeysToSnakeCase_keys (v : value) :
  keys_ok no_upper (convertKeysToSnakeCase v)
  /\ (forall p, v = Prim p -> convertKeysToSnakeCase v = v)
  /\ (forall items,
        v = Arr items ->
        exists items', convertKeysToSnakeCase v = Arr items'
                       /\ length items' = length items).
Proof.
  split; [|split].
  - rewrite convertKeysToSnakeCase_with.
    apply convertKeysWith_keys. apply toSnakeCase_no_upper.
  - intros p ->. reflexivity.
  - intros items ->. simpl. eexists. split; [reflexivity|].
    apply length_map.
Qed.



(** Two keys that collide: the later value is kept, at the place of the
    earlier key. *)
Example convertKeysToSnakeCase_sample_collision :
  convertKeysToSnakeCase
    (Obj [ ("imageUrl", Prim (Str "a.png"));
           ("title", Prim (Str "t"));
           ("image_url", Prim (Str "b.png")) ])
  = Obj [ ("image_url", Prim (Str "b.png")); ("title", Prim (Str "t")) ].
Proof. reflexivity. Qed.

(** ** Projects and inquiries *)




Lemma spread_lookup (target source : list (string * value)) (key : string) :
  lookup (spread target source) key
  = match last_field (fun k => k =? key) source with
    | Some v => Some v
    | None => lookup target key
    end.
Proof.
  unfold spread.
  exact (fold_assign_lookup (fun k => k) (fun v : value => v) source target key).
Qed.

Lemma spread_NoDup (target source : list (string * value)) :
  NoDup (map fst target) -> NoDup (map fst (spread target source)).
Proof.
  unfold spread. revert target.
  induction source as [|kv source IH]; intros target Htarget; simpl.
  - exact Htarget.
  - apply IH. now apply assign_NoDup.
Qed.



Lemma filter_negb_all {A} (p : A -> bool) (l : list A) :
  (forall x, In x l -> p x = false) ->
  filter (fun x => negb (p x)) l = l.
Proof.
  induction l as [|x l IH]; intros Hall; simpl; [reflexivity|].
  rewrite (Hall x (or_introl eq_refl)). simpl. f_equal.
  apply IH. intros y Hy. apply Hall. now right.
Qed.

Section CatalogFacts.
Context {DbError : Type}.
Variable db : CatalogStorage DbError.

(** X29. After a successful [updateProject] every local project with the
    given id is the old one merged with the update as it was passed in: a
    key of the update holds the update's value (the last one, if the key is
    there twice), every other key holds what it held, no key is there twice.
    Projects with another id, or whose id is not a string, are unchanged, as
    are the inquiries; after a database error nothing changes. *)
Theorem X29_updateProject_merge (cat : Catalog) (id : string)
    (updatedData : list (string * value)) :
  (update_project db cat id (project_snakeCaseData updatedData) = None ->
   Forall2
     (fun old new =>
        (has_id old id = false -> new = old)
        /\ (has_id old id = true ->
            (forall key,
               lookup new key
               = match last_field (fun k => k =? key) updatedData with
                 | Some v => Some v
                 | None => lookup old key
                 end)
            /\ (NoDup (map fst old) -> NoDup (map fst new))))
     (projects cat) (projects (updateProject db id updatedData cat))
   /\ inquiries (updateProject db id updatedData cat) = inquiries cat)
  /\ (forall error,
        update_project db cat id (project_snakeCaseData updatedData) = Some error ->
        updateProject db id updatedData cat = cat).
Proof.
  unfold updateProject. split.
  - intros Hok. rewrite Hok. simpl. split; [|reflexivity].
    apply Forall2_map_self. intros project.
    destruct (has_id project id); split; intros H; try discriminate H.
    + split; [intros key; apply spread_lookup | apply spread_NoDup].
    + reflexivity.
  - intros error Herror. now rewrite Herror.
Qed.

(** X30. A successful [deleteProject] keeps, in their order, exactly the
    projects whose id is not the given string, and leaves the inquiries;
    [deleteInquiry] does the same for inquiries. So deleting by its id a
    project that [addProject] has just stored brings the state back, when
    no older project has that id. *)
Theorem X30_delete_after_add (cat : Catalog) (id : string) :
  (delete_project db cat id = None ->
   (forall project,
      In project (projects (deleteProject db id cat))
      <-> In project (projects cat) /\ has_id project id = false)
   /\ inquiries (deleteProject db id cat) = inquiries cat)
  /\ (delete_inquiry db cat id = None ->
      (forall inquiry,
         In inquiry (inquiries (deleteInquiry db id cat))
         <-> In inquiry (inquiries cat) /\ has_id inquiry id = false)
      /\ projects (deleteInquiry db id cat) = projects cat)
  /\ (forall project data,
        insert_project db cat (project_snakeCaseData project) = inr data ->
        has_id data id = true ->
        (forall old, In old (projects cat) -> has_id old id = false) ->
        delete_project db (addProject db project cat) id = None ->
        deleteProject db id (addProject db project cat) = cat).
Proof.
  split; [|split].
  - intros Hok. unfold deleteProject. rewrite Hok. simpl.
    split; [|reflexivity].
    intros project. rewrite filter_In, negb_true_iff. reflexivity.
  - intros Hok. unfold deleteInquiry. rewrite Hok. simpl.
    split; [|reflexivity].
    intros inquiry. rewrite filter_In, negb_true_iff. reflexivity.
  - intros project data Hinsert Hdata Hfresh Hdelete.
    unfold deleteProject. rewrite Hdelete.
    unfold addProject. rewrite Hinsert. simpl.
    destruct cat as [ps qs]. simpl in *. f_equal.
    rewrite filter_app. simpl. rewrite Hdata. simpl. rewrite app_nil_r.
    now apply filter_negb_all.
Qed.

End CatalogFacts.

Lemma X29_witness :
  map (fun project => map fst project)
    (projects (updateProject CatalogSamples.db_ok "p1"
                 [ ("technicalDetails", Prim (Str "new"));
                   ("imageUpload", Prim (Str "data:image/png;base64,AAAA")) ]
                 CatalogSamples.cat))
  = [ ["id"; "title"; "technical_details"; "technicalDetails"; "imageUpload"];
      ["id"; "title"] ]
  /\ Forall2
       (fun old new => has_id old "p1" = false -> new = old)
       (projects CatalogSamples.cat)
       (projects (updateProject CatalogSamples.db_ok "p1"
                    [ ("technicalDetails", Prim (Str "new"));
                      ("imageUpload", Prim (Str "data:image/png;base64,AAAA")) ]
                    CatalogSamples.cat)).
Proof.
  split; [reflexivity|].
  destruct (proj1 (X29_updateProject_merge CatalogSamples.db_ok
                     CatalogSamples.cat "p1"
                     [ ("technicalDetails", Prim (Str "new"));
                       ("imageUpload", Prim (Str "data:image/png;base64,AAAA")) ])
              eq_refl) as (Hprojects & _).
  revert Hprojects. apply Forall2_impl.
  intros old new (Hother & _). exact Hother.
Defined.

Lemma X30_witness :
  deleteProject CatalogSamples.db_ok "p9"
    (addProject CatalogSamples.db_ok
       [ ("title", Prim (Str "Linker")) ] CatalogSamples.cat)
  = CatalogSamples.cat.
Proof.
  apply (proj2 (proj2 (X30_delete_after_add CatalogSamples.db_ok
                         CatalogSamples.cat "p9"))
           [ ("title", Prim (Str "Linker")) ] _ eq_refl eq_refl);
    [|reflexivity].
  intros old Hin. simpl in Hin.
  destruct Hin as [H|[H|[]]]; subst old; reflexivity.
Defined.

Lemma X19_witness :
  let row := documentStatus Samples.st Samples.o1 in
  0 < DocumentStatus.documentsCount row
  /\ Order.status Samples.o1 = "completed"
  /\ showsDeliveryDate row = true.
Proof.
  intros row.
  destruct (X19_derived_row_invariants Samples.st Samples.o1)
    as (_ & _ & Hshown & Hdelivered & _).
  destruct (Hdelivered eq_refl) as (Hcount & Hstatus).
  split; [exact Hcount|]. split; [exact Hstatus|].
  apply Hshown. split; [reflexivity|]. left. discriminate.
Defined.

Lemma X26_witness :
  keys_ok no_upper (convertKeysToSnakeCase MoreSamples.project_form)
  /\ convertKeysToSnakeCase (Prim (Str "keepMe")) = Prim (Str "keepMe").
Proof.
  destruct (X26_convertKeysToSnakeCase_keys MoreSamples.project_form)
    as (Hkeys & _).
  split; [exact Hkeys|].
  apply (proj1 (proj2 (X26_convertKeysToSnakeCase_keys (Prim (Str "keepMe"))))
           (Str "keepMe")).
  reflexivity.
Defined.
